(** * Latency log analyzer ([scripts/analyze_latency.py])

    A shallow embedding of [LatencyAnalyzer] and [main], and the properties
    the specification states about them.

    Modelling conventions.
    - A Python [str] is a Rocq [string] holding its UTF-8 encoding; the
      glyphs of the source are the byte sequences the source file holds.
      Equality and substring tests are the same on the encoding as on the
      code points; lengths count code points.
    - A Python [int] is a [Z].
    - A Python [float] is an IEEE 754 binary64 number, [spec_float] with
      precision 53 and maximal exponent 1024, and the operations of
      [SpecFloat], which compute on [Z].  Decimal texts are read and
      written with correct rounding, as [float], [repr] and the [f] format
      do.
    - An exception is a value of [exn] carried by [res]; what touches the
      files or prints runs in the state monad [IO.M].

    Outside the model: digits and white space beyond ASCII in the classes
    [\d] and [\s]; a log file that is not valid UTF-8; the limit CPython
    puts on the number of digits [int] reads; a write that fails after the
    destination was opened. *)

From Stdlib Require Import ZArith List Bool Ascii String Lia.
From Stdlib Require Import SpecFloat DecimalString.
From Stdlib Require DecimalPos DecimalZ Strings.Byte.
Import ListNotations.

Local Open Scope string_scope.
Local Open Scope Z_scope.

(** ** Exceptions *)

Inductive exn : Type :=
| ValueError
| OverflowError.

Inductive res (A : Type) : Type :=
| Ok (a : A)
| Raise (e : exn).

Arguments Ok {A} a.
Arguments Raise {A} e.

Definition bind {A B : Type} (m : res A) (f : A -> res B) : res B :=
  match m with
  | Ok a => f a
  | Raise e => Raise e
  end.

Notation "x <- m ;; k" := (bind m (fun x => k))
  (at level 61, m at next level, right associativity).

(** ** Python floats *)

Module PyFloat.

Definition float : Type := spec_float.

Definition prec : Z := 53.
Definition emax : Z := 1024.

Definition add (x y : float) : float := SFadd prec emax x y.
Definition mul (x y : float) : float := SFmul prec emax x y.
Definition div (x y : float) : float := SFdiv prec emax x y.

(** [x < y] and [x > y]; both are false when a NaN is compared. *)
Definition lt (x y : float) : bool := SFltb x y.
Definition gt (x y : float) : bool := SFltb y x.

(** [float(n)] for an int [n]: the nearest binary64, and [OverflowError]
    when [n] is too large (what [int / float] and [int * float] do to
    their int operand). *)
Definition of_int (n : Z) : res float :=
  match binary_normalize prec emax n 0 false with
  | S754_infinity _ => Raise OverflowError
  | x => Ok x
  end.

(** The same conversion for a [len(...)], which is below 2^63. *)
Definition of_len (n : nat) : float :=
  binary_normalize prec emax (Z.of_nat n) 0 false.

(** The value [m / 10^k] rounded to the nearest binary64, ties to even:
    the quotient is taken with at least 64 bits, and the remainder tells
    on which side of the middle the exact value lies. *)
Definition of_decimal (m : Z) (k : nat) : float :=
  match m with
  | Zpos _ =>
      let d := 10 ^ Z.of_nat k in
      let s := Z.max 0 (64 + Z.log2 d - Z.log2 m) in
      let '(q, r) := Z.div_eucl (Z.shiftl m s) d in
      let l := if r =? 0 then loc_Exact else loc_Inexact (2 * r ?= d) in
      binary_round_aux prec emax false q (- s) l
  | _ => S754_zero false
  end.

(** Exact fixed-point rendering: [m * 2^e * 10^p] rounded to an integer,
    ties to even. *)
Definition scaled (m : positive) (e : Z) (p : nat) : Z :=
  let n := Zpos m * 10 ^ Z.of_nat p in
  match e with
  | Zneg _ =>
      let d := 2 ^ (- e) in
      let '(q, r) := Z.div_eucl n d in
      match 2 * r ?= d with
      | Lt => q
      | Eq => if Z.even q then q else q + 1
      | Gt => q + 1
      end
  | _ => n * 2 ^ e
  end.

End PyFloat.

Import PyFloat.

(** ** Python strings *)

Module PyStr.

Definition nl : string := String "010" "".

(** [s * n] *)
Fixpoint rep (s : string) (n : nat) : string :=
  match n with
  | O => ""
  | S n' => s ++ rep s n'
  end.

(** [sep.join(l)] *)
Fixpoint join (sep : string) (l : list string) : string :=
  match l with
  | [] => ""
  | [x] => x
  | x :: rest => x ++ sep ++ join sep rest
  end.

(** [s.startswith(p)] *)
Fixpoint startswith (p s : string) : bool :=
  match p, s with
  | EmptyString, _ => true
  | String a p', String b s' => Ascii.eqb a b && startswith p' s'
  | String _ _, EmptyString => false
  end.

(** [needle in hay] *)
Fixpoint contains (needle hay : string) : bool :=
  startswith needle hay ||
  match hay with
  | EmptyString => false
  | String _ hay' => contains needle hay'
  end.

(** [len(s)]: the bytes of the encoding that start a code point. *)
Definition continuation (c : ascii) : bool :=
  let n := N_of_ascii c in (128 <=? n)%N && (n <? 192)%N.

Fixpoint len (s : string) : nat :=
  match s with
  | EmptyString => O
  | String c s' => if continuation c then len s' else S (len s')
  end.

(** Format specifications [:<w] and [:>w] with the default fill. *)
Definition ljust (w : nat) (s : string) : string := s ++ rep " " (w - len s).
Definition rjust (w : nat) (s : string) : string := rep " " (w - len s) ++ s.

(** White space and decimal digits, on ASCII. *)
Definition isspace (c : ascii) : bool :=
  let n := N_of_ascii c in
  ((9 <=? n) && (n <=? 13) || (28 <=? n) && (n <=? 32))%N.

Definition isdigit (c : ascii) : bool :=
  let n := N_of_ascii c in ((48 <=? n) && (n <=? 57))%N.

Fixpoint lstrip (s : string) : string :=
  match s with
  | String c s' => if isspace c then lstrip s' else s
  | EmptyString => s
  end.

Fixpoint rstrip (s : string) : string :=
  match s with
  | String c s' =>
      match rstrip s' with
      | EmptyString => if isspace c then "" else String c ""
      | t => String c t
      end
  | EmptyString => s
  end.

(** [s.strip()] *)
Definition strip (s : string) : string := rstrip (lstrip s).

(** [str(n)] for an int. *)
Definition of_int (n : Z) : string := NilZero.string_of_int (Z.to_int n).

(** The digits of a non-negative number in groups of three, as the
    format specification [:,] writes them. *)
Fixpoint group3 (fuel : nat) (n : Z) : string :=
  match fuel with
  | O => of_int n
  | S fuel' =>
      if n <? 1000 then of_int n
      else group3 fuel' (n / 1000) ++ "," ++
           of_int (n mod 1000 / 100) ++
           of_int (n mod 100 / 10) ++ of_int (n mod 10)
  end.

Definition commas (n : Z) : string :=
  if n <? 0 then "-" ++ group3 (Z.to_nat (Z.log2 (- n))) (- n)
  else group3 (Z.to_nat (Z.log2 n)) n.

(** The format specification [:.pf] of a float. *)
Definition fixed (p : nat) (x : float) : string :=
  let sign (s : bool) := if s then "-" else "" in
  let digits (n : Z) :=
    let d := 10 ^ Z.of_nat p in
    of_int (n / d) ++
    match p with
    | O => ""
    | _ => "." ++ (let f := of_int (n mod d) in rep "0" (p - length f) ++ f)
    end in
  match x with
  | S754_nan => "nan"
  | S754_infinity s => sign s ++ "inf"
  | S754_zero s => sign s ++ digits 0
  | S754_finite s m e => sign s ++ digits (scaled m e p)
  end.

(** [repr(x)], which is also [str(x)] and the empty format
    specification: the shortest decimal that reads back as [x].

    [x] is [num / den]; [ge10 t] is [10^t <= x]. *)
Section Repr.
Variables (x : float) (num den : Z).

Definition ge10 (t : Z) : bool :=
  if 0 <=? t then den * 10 ^ t <=? num else den <=? num * 10 ^ (- t).

(** The [t] with [10^t <= x < 10^(t+1)]. *)
Definition exponent10 : Z :=
  let t := (Z.log2 num - Z.log2 den) * 30103 / 100000 in
  if ge10 (t + 1) then t + 1 else if ge10 t then t else t - 1.

(** [d * 10^q] as a float. *)
Definition read (d q : Z) : float :=
  if 0 <=? q then of_decimal (d * 10 ^ q) 0 else of_decimal d (Z.to_nat (- q)).

(** The decimal with [p] digits that reads back as [x], when there is
    one: of the two next to [x], the nearer. *)
Definition candidate (p : Z) : option (Z * Z) :=
  let q := exponent10 - (p - 1) in
  let lo := if 0 <=? q then num / (den * 10 ^ q) else num * 10 ^ (- q) / den in
  let lo_ok := SFeqb (read lo q) x in
  let hi_ok := SFeqb (read (lo + 1) q) x in
  let nearer_lo :=
    if 0 <=? q then 2 * num <=? (2 * lo + 1) * 10 ^ q * den
    else 2 * num * 10 ^ (- q) <=? (2 * lo + 1) * den in
  match lo_ok, hi_ok with
  | true, true => Some (if nearer_lo then lo else lo + 1, q)
  | true, false => Some (lo, q)
  | false, true => Some (lo + 1, q)
  | false, false => None
  end.

Fixpoint shortest (fuel : nat) (p : Z) : Z * Z :=
  match fuel with
  | O => (0, 0)
  | S fuel' =>
      match candidate p with
      | Some dq => dq
      | None => shortest fuel' (p + 1)
      end
  end.
End Repr.

Fixpoint drop_zeros (fuel : nat) (d q : Z) : Z * Z :=
  match fuel with
  | O => (d, q)
  | S fuel' => if d mod 10 =? 0 then drop_zeros fuel' (d / 10) (q + 1) else (d, q)
  end.

(** The digits [ds], read as [0.ds * 10^decpt], laid out as [repr] does. *)
Definition layout (ds : string) (decpt : Z) : string :=
  let nd := Z.of_nat (length ds) in
  if (-4 <? decpt) && (decpt <=? 16) then
    if decpt <=? 0 then "0." ++ rep "0" (Z.to_nat (- decpt)) ++ ds
    else if nd <=? decpt then ds ++ rep "0" (Z.to_nat (decpt - nd)) ++ ".0"
    else substring 0 (Z.to_nat decpt) ds ++ "."
           ++ substring (Z.to_nat decpt) (length ds) ds
  else
    let e := decpt - 1 in
    substring 0 1 ds
      ++ (if 1 <? nd then "." ++ substring 1 (length ds) ds else "")
      ++ "e" ++ (if e <? 0 then "-" else "+")
      ++ (if Z.abs e <? 10 then "0" else "") ++ of_int (Z.abs e).

Definition repr (x : float) : string :=
  match x with
  | S754_nan => "nan"
  | S754_infinity s => if s then "-inf" else "inf"
  | S754_zero s => if s then "-0.0" else "0.0"
  | S754_finite s m e =>
      let num := if 0 <=? e then Zpos m * 2 ^ e else Zpos m in
      let den := if 0 <=? e then 1 else 2 ^ (- e) in
      let '(d, q) := shortest (S754_finite false m e) num den 17 1 in
      let '(d, q) := drop_zeros 20 d q in
      let ds := of_int d in
      (if s then "-" else "") ++ layout ds (Z.of_nat (length ds) + q)
  end.

(** [str(b)] for a bool. *)
Definition of_bool (b : bool) : string := if b then "True" else "False".

End PyStr.

(** ** Regular expressions

    The fragment of [re] the analyzer's pattern is written in, matched the
    way [re] matches: by backtracking, a greedy repetition trying the
    longest run first and a lazy one the shortest.  Repetition is over one
    character at a time, which is all the pattern uses.  The classes [\d]
    and [\s] are taken on ASCII, and [.] is compiled with [re.DOTALL]. *)

Module Regex.

Inductive regex : Type :=
| Eps
| Chr (p : ascii -> bool)
| Seq (r1 r2 : regex)
| Alt (r1 r2 : regex)
| Star (p : ascii -> bool)
| LazyStar (p : ascii -> bool)
| Group (n : nat) (r : regex).

(** The text of each group, by number. *)
Definition groups : Type := nat -> string.

Definition no_groups : groups := fun _ => "".

Definition set_group (n : nat) (v : string) (g : groups) : groups :=
  fun i => if Nat.eqb i n then v else g i.

(** What was read between the input [s] and its suffix [rest]. *)
Definition consumed (s rest : string) : string :=
  substring 0 (String.length s - String.length rest) s.

Section Match.
Context {A : Type}.

Fixpoint greedily (p : ascii -> bool) (k : string -> option A) (s : string)
  : option A :=
  match s with
  | String c s' =>
      if p c then
        match greedily p k s' with
        | Some a => Some a
        | None => k s
        end
      else k s
  | EmptyString => k s
  end.

Fixpoint lazily (p : ascii -> bool) (k : string -> option A) (s : string)
  : option A :=
  match k s with
  | Some a => Some a
  | None =>
      match s with
      | String c s' => if p c then lazily p k s' else None
      | EmptyString => None
      end
  end.

(** [run r s g k]: match [r] at the head of [s] and hand the rest of the
    input and the groups to [k]; when [k] fails, try the next way of
    matching [r]. *)
Fixpoint run (r : regex) (s : string) (g : groups)
  (k : string -> groups -> option A) : option A :=
  match r with
  | Eps => k s g
  | Chr p =>
      match s with
      | String c s' => if p c then k s' g else None
      | EmptyString => None
      end
  | Seq r1 r2 => run r1 s g (fun s' g' => run r2 s' g' k)
  | Alt r1 r2 =>
      match run r1 s g k with
      | Some a => Some a
      | None => run r2 s g k
      end
  | Star p => greedily p (fun s' => k s' g) s
  | LazyStar p => lazily p (fun s' => k s' g) s
  | Group n r' =>
      run r' s g (fun s' g' => k s' (set_group n (consumed s s') g'))
  end.
End Match.

(** [pattern.match] at the head of [s]: the groups and the rest. *)
Definition match_here (r : regex) (s : string) : option (groups * string) :=
  run r s no_groups (fun rest g => Some (g, rest)).

(** [pattern.findall(s)] as the list of the matches' groups, left to
    right; the search resumes where a match ended.  [skip] counts the
    characters of the last match still to pass. *)
Fixpoint scan (r : regex) (skip : nat) (s : string) : list groups :=
  match skip with
  | S n =>
      match s with
      | String _ s' => scan r n s'
      | EmptyString => []
      end
  | O =>
      match match_here r s with
      | Some (g, rest) =>
          g :: match s with
               | String _ s' =>
                   scan r (String.length s - String.length rest - 1) s'
               | EmptyString => []
               end
      | None =>
          match s with
          | String _ s' => scan r 0 s'
          | EmptyString => []
          end
      end
  end.

Definition findall (r : regex) (s : string) : list groups := scan r 0 s.

(** Pattern syntax. *)
Definition any : ascii -> bool := fun _ => true.
Definition only (c : ascii) : ascii -> bool := Ascii.eqb c.
Definition digit : ascii -> bool := PyStr.isdigit.
Definition space : ascii -> bool := PyStr.isspace.
Definition digit_or_dot : ascii -> bool :=
  fun c => PyStr.isdigit c || Ascii.eqb c ".".

Fixpoint lit (s : string) : regex :=
  match s with
  | EmptyString => Eps
  | String c s' => Seq (Chr (only c)) (lit s')
  end.

Definition plus (p : ascii -> bool) : regex := Seq (Chr p) (Star p).

Fixpoint seq (l : list regex) : regex :=
  match l with
  | [] => Eps
  | r :: l' => Seq r (seq l')
  end.

End Regex.

(** ** [int(s)] and [float(s)]

    Both are modelled on the strings the pattern's groups can hold: decimal
    digits, and for [float] also dots.  Any other character is made a
    [ValueError] here. *)

Module Parse.

(** The number a string of decimal digits writes; [None] when a
    character is not a digit.  [acc] is the value read so far. *)
Fixpoint digits (acc : Z) (s : string) : option Z :=
  match s with
  | EmptyString => Some acc
  | String c s' =>
      if PyStr.isdigit c
      then digits (10 * acc + Z.of_N (N_of_ascii c) - 48) s'
      else None
  end.

Definition int_of_str (s : string) : res Z :=
  match s with
  | EmptyString => Raise ValueError
  | _ => match digits 0 s with
         | Some n => Ok n
         | None => Raise ValueError
         end
  end.

(** The text before the first dot, and the text after it when there is
    one. *)
Fixpoint split_dot (s : string) : string * option string :=
  match s with
  | EmptyString => ("", None)
  | String c s' =>
      if Ascii.eqb c "." then ("", Some s')
      else let '(a, b) := split_dot s' in (String c a, b)
  end.

(** [float(s)]: digits with at most one dot and at least one digit. *)
Definition float_of_str (s : string) : res float :=
  let '(a, b) := split_dot s in
  let f := match b with Some f => f | None => "" end in
  match a ++ f with
  | EmptyString => Raise ValueError
  | _ => match digits 0 a, digits 0 f with
         | Some _, Some _ =>
             match digits 0 (a ++ f) with
             | Some m => Ok (of_decimal m (String.length f))
             | None => Raise ValueError
             end
         | _, _ => Raise ValueError
         end
  end.

(** A float literal of the source. *)
Definition literal (s : string) : float :=
  match float_of_str s with
  | Ok x => x
  | Raise _ => S754_nan
  end.

(** An int literal of the source where a float is computed. *)
Definition int_literal (n : Z) : float :=
  binary_normalize prec emax n 0 false.

End Parse.

(** ** The sample record *)

Module Sample.

Record LatencySample : Type := mk {
  timestamp : string;
  sample_count : Z;
  total_samples : Z;
  p50_ms : float;
  p95_ms : float;
  p99_ms : float;
  meets_requirement : bool
}.

End Sample.

Import Sample.

(** ** The extractor: the pattern and the loop of [parse_logs] *)

Module Extract.
Import Regex.

Definition ts : regex :=
  seq [Chr digit; Chr digit; lit "-"; Chr digit; Chr digit; plus space;
       Chr digit; Chr digit; lit ":"; Chr digit; Chr digit; lit ":";
       Chr digit; Chr digit; lit "."; plus digit].

Definition percentile (name : string) (n : nat) : regex :=
  seq [LazyStar any; lit name; Star space; Group n (plus digit_or_dot);
       Star space; lit "ms"; Star space; lit PyStr.nl].

Definition pass_glyph : string := "✓".
Definition warning_glyph : string := "⚠️".

Definition pattern : regex :=
  seq [Group 1 ts;
       LazyStar any; lit "[LatencyService] Latency Statistics:";
       Star space; lit PyStr.nl;
       LazyStar any; lit "Samples:"; Star space; Group 2 (plus digit);
       Star space; lit "(Total:"; Star space; Group 3 (plus digit);
       lit ")"; Star space; lit PyStr.nl;
       percentile "P50:" 4;
       percentile "P95:" 5;
       percentile "P99:" 6;
       LazyStar any;
       Group 7 (Alt (lit pass_glyph) (Alt (lit warning_glyph) (lit "WARNING")))].

(** The three status tokens. *)
Definition status_token (t : string) : Prop :=
  t = pass_glyph \/ t = warning_glyph \/ t = "WARNING".

(** The body of the loop over the matches: one sample from the seven
    groups of a match. *)
Definition sample_of_match (g : groups) : res LatencySample :=
  let timestamp := g 1%nat in
  let samples := g 2%nat in
  let total := g 3%nat in
  let p50 := g 4%nat in
  let p95 := g 5%nat in
  let p99 := g 6%nat in
  let status := g 7%nat in
  sc <- Parse.int_of_str samples ;;
  tot <- Parse.int_of_str total ;;
  f50 <- Parse.float_of_str p50 ;;
  f95 <- Parse.float_of_str p95 ;;
  f99 <- Parse.float_of_str p99 ;;
  Ok (Sample.mk (PyStr.strip timestamp) sc tot f50 f95 f99
        (String.eqb status pass_glyph)).

(** The loop: every sample is appended to the samples found so far; the
    first conversion that raises ends it. *)
Fixpoint extend (samples : list LatencySample) (matches : list groups)
  : res (list LatencySample) :=
  match matches with
  | [] => Ok samples
  | g :: rest =>
      s <- sample_of_match g ;;
      extend (samples ++ [s])%list rest
  end.

(** Extraction from the text of the log. *)
Definition extract (content : string) : res (list LatencySample) :=
  extend [] (findall pattern content).

End Extract.

(** ** Built-ins on lists of floats *)

Module Builtins.

(** [sum(l)]: the additions from left to right, from the int 0.  (Since
    Python 3.12 [sum] also carries the rounding error of each addition
    along; it returns the same float whenever the additions are exact.) *)
Definition sum (l : list float) : float :=
  fold_left add l (S754_zero false).

(** [max(l)] and [min(l)]: the first greatest and the first least item.
    On the empty list Python raises; [generate_report] has returned before
    it would take either, and the value given here is never used. *)
Definition max (l : list float) : float :=
  match l with
  | [] => S754_nan
  | x :: rest => fold_left (fun m y => if gt y m then y else m) rest x
  end.

Definition min (l : list float) : float :=
  match l with
  | [] => S754_nan
  | x :: rest => fold_left (fun m y => if lt y m then y else m) rest x
  end.

(** [l[:k]] for [0 <= k]. *)
Definition slice_to {A : Type} (l : list A) (k : Z) : list A :=
  firstn (Z.to_nat k) l.

(** [l[k:]]: a negative [k] counts from the end, and the start is
    clipped to the list. *)
Definition slice_from {A : Type} (l : list A) (k : Z) : list A :=
  let n := Z.of_nat (List.length l) in
  skipn (Z.to_nat (if k <? 0 then Z.max (n + k) 0 else k)) l.

End Builtins.

(** ** [generate_report] *)

Module Report.
Import Builtins.

Definition pass_text : string := "✓ PASS".
Definition fail_text : string := "❌ FAIL".

Section Locals.
Variable samples : list LatencySample.

Definition p50_values : list float := map p50_ms samples.
Definition p95_values : list float := map p95_ms samples.
Definition p99_values : list float := map p99_ms samples.

(** [self.samples[-1].total_samples]; the list is not empty where it is
    read. *)
Definition total_samples : Z :=
  List.last (map Sample.total_samples samples) 0.

Definition failing_windows : Z :=
  Z.of_nat (List.length (filter (fun s => negb (meets_requirement s)) samples)).

Definition max_p95 : float := max p95_values.
Definition min_p95 : float := min p95_values.

Definition mean (l : list float) : float :=
  div (sum l) (of_len (List.length l)).

Definition avg_p95 : float := mean p95_values.

Definition duration_minutes : float :=
  mul (of_len (List.length samples)) (Parse.literal "0.5").

(** [int / float] converts the int first, and raises when it is too
    large for a float. *)
Definition sample_rate : res float :=
  if gt duration_minutes (Parse.int_literal 0) then
    t <- of_int total_samples ;;
    Ok (div t (mul duration_minutes (Parse.int_literal 60)))
  else Ok (Parse.int_literal 0).

Definition validation_passed : bool :=
  (failing_windows =? 0) &&
  lt max_p95 (Parse.literal "100.0") &&
  lt avg_p95 (Parse.literal "100.0") &&
  (3600 <=? total_samples).

Definition verdict (b : bool) : string :=
  if b then pass_text else fail_text.

Definition n : Z := Z.of_nat (List.length p95_values).

Definition early_avg : float :=
  div (sum (slice_to p95_values (n / 3))) (Parse.int_literal (n / 3)).

Definition late_avg : float :=
  div (sum (slice_from p95_values (- n / 3))) (Parse.int_literal (n / 3)).

Definition exceeded_warning : string :=
  "⚠️  P95 exceeded 100ms (max: " ++ PyStr.fixed 2 max_p95 ++ "ms)".

Definition close_warning : string :=
  "⚠️  P95 close to threshold (max: " ++ PyStr.fixed 2 max_p95 ++ "ms)".

Definition trend_warning : string :=
  "⚠️  P95 increasing over time (" ++ PyStr.fixed 1 early_avg ++ "ms → "
    ++ PyStr.fixed 1 late_avg ++ "ms)".

Definition trend_fires : bool :=
  (5 <=? n) && gt late_avg (mul early_avg (Parse.literal "1.2")).

Definition average_warning : string :=
  "⚠️  Average P95 high (" ++ PyStr.fixed 2 avg_p95 ++ "ms)".

Definition outlier_warning : string :=
  "⚠️  P99 shows outliers (max: " ++ PyStr.fixed 2 (max p99_values) ++ "ms)".

Definition insufficient_warning : string :=
  "⚠️  Insufficient samples (" ++ PyStr.commas total_samples ++ " < 3,600)".

Definition short_warning : string :=
  "⚠️  Session too short (" ++ PyStr.fixed 1 duration_minutes
    ++ " < 30 minutes)".

(** The warnings in the order they are appended. *)
Definition warnings : list string :=
  List.concat
    [if gt max_p95 (Parse.literal "100.0") then [exceeded_warning]
     else if gt max_p95 (Parse.literal "90.0") then [close_warning]
     else [];
     if gt avg_p95 (Parse.literal "80.0") then [average_warning] else [];
     if gt (max p99_values) (Parse.literal "150.0")
     then [outlier_warning] else [];
     if total_samples <? 3600 then [insufficient_warning] else [];
     if lt duration_minutes (Parse.int_literal 30)
     then [short_warning] else [];
     if trend_fires then [trend_warning] else []].

Definition statistics (title : string) (l : list float) : list string :=
  [title;
   "  Average: " ++ PyStr.fixed 2 (mean l) ++ " ms";
   "  Minimum: " ++ PyStr.fixed 2 (min l) ++ " ms";
   "  Maximum: " ++ PyStr.fixed 2 (max l) ++ " ms";
   ""].

(** The lines from [Validation Results:] to the verdict. *)
Definition validation_section : list string :=
  ["Validation Results:";
   "  P95 < 100ms Requirement: "
     ++ verdict (lt max_p95 (Parse.literal "100.0"));
   "  Failing Windows: " ++ PyStr.of_int failing_windows ++ " / "
     ++ PyStr.of_int (Z.of_nat (List.length samples));
   "  Minimum Sample Count: " ++ verdict (3600 <=? total_samples)
     ++ " (" ++ PyStr.commas total_samples ++ " / 3,600)";
   "";
   "Overall Validation: " ++ verdict validation_passed;
   ""].

Definition warnings_section : list string :=
  match warnings with
  | [] => []
  | _ => List.concat [["Warnings:"]; map (append "  ") warnings; [""]]
  end.

Definition detail_row (sample : LatencySample) : string :=
  let status := if meets_requirement sample then "✓" else "❌" in
  PyStr.ljust 20 (timestamp sample) ++ " "
    ++ PyStr.rjust 8 (PyStr.of_int (sample_count sample)) ++ " "
    ++ PyStr.rjust 7 (PyStr.fixed 2 (p50_ms sample)) ++ "ms "
    ++ PyStr.rjust 7 (PyStr.fixed 2 (p95_ms sample)) ++ "ms "
    ++ PyStr.rjust 7 (PyStr.fixed 2 (p99_ms sample)) ++ "ms "
    ++ PyStr.rjust 6 status.

Definition detail_section : list string :=
  List.concat
    [[PyStr.rep "=" 60;
      "DETAILED BREAKDOWN";
      PyStr.rep "=" 60;
      "";
      PyStr.ljust 20 "Timestamp" ++ " " ++ PyStr.rjust 8 "Samples" ++ " "
        ++ PyStr.rjust 8 "P50" ++ " " ++ PyStr.rjust 8 "P95" ++ " "
        ++ PyStr.rjust 8 "P99" ++ " " ++ PyStr.rjust 6 "Status";
      PyStr.rep "-" 70];
     map detail_row samples;
     [""]].

Definition session_section (name : string) (rate : float) : list string :=
  [PyStr.rep "=" 60;
   "LATENCY VALIDATION REPORT";
   PyStr.rep "=" 60;
   "";
   "Session Information:";
   "  Log File: " ++ name;
   "  Log Entries: " ++ PyStr.of_int (Z.of_nat (List.length samples));
   "  Estimated Duration: " ++ PyStr.fixed 1 duration_minutes ++ " minutes";
   "  Total Samples: " ++ PyStr.commas total_samples;
   "  Sample Rate: " ++ PyStr.fixed 2 rate ++ " Hz";
   ""].

Definition report_lines (name : string) (rate : float) (detailed : bool)
  : list string :=
  List.concat
    [session_section name rate;
     statistics "Latency Statistics (P95):" p95_values;
     statistics "Latency Statistics (P50):" p50_values;
     statistics "Latency Statistics (P99):" p99_values;
     validation_section;
     warnings_section;
     if detailed && (0 <? Z.of_nat (List.length samples))
     then detail_section else [];
     [PyStr.rep "=" 60]].

(** [generate_report]; [name] is [self.log_file.name]. *)
Definition generate_report (name : string) (detailed : bool) : res string :=
  match samples with
  | [] => Ok "No latency samples found in log file."
  | _ =>
      rate <- sample_rate ;;
      Ok (PyStr.join PyStr.nl (report_lines name rate detailed))
  end.

End Locals.

End Report.

(** ** The world of one run: files and the two output streams *)

Module IO.

Record World : Type := mkWorld {
  (** the text of each file that exists *)
  files : string -> option string;
  (** the message of the error that opening a path for writing raises,
      for the paths where it does *)
  refused : string -> option string;
  (** what was printed, one entry for each call of [print] *)
  stdout : list string;
  stderr : list string
}.

(** A computation that reads and changes the world and may raise. *)
Definition M (A : Type) : Type := World -> res A * World.

Definition ret {A : Type} (a : A) : M A := fun w => (Ok a, w).

Definition bindM {A B : Type} (m : M A) (f : A -> M B) : M B :=
  fun w =>
    match m w with
    | (Ok a, w') => f a w'
    | (Raise e, w') => (Raise e, w')
    end.

Definition lift {A : Type} (r : res A) : M A := fun w => (r, w).

Definition print (s : string) : M unit :=
  fun w => (Ok tt, mkWorld (files w) (refused w) (stdout w ++ [s])%list (stderr w)).

Definition eprint (s : string) : M unit :=
  fun w => (Ok tt, mkWorld (files w) (refused w) (stdout w) (stderr w ++ [s])%list).

Definition exists_ (path : string) : M bool :=
  fun w => (Ok (match files w path with Some _ => true | None => false end), w).

(** [open(path).read()] of a file that exists. *)
Definition read (path : string) : M string :=
  fun w => (Ok (match files w path with Some c => c | None => "" end), w).

(** [open(path, 'w')] followed by the writes of [text]: the error message
    when the path cannot be opened, and otherwise the file holds [text]. *)
Definition write (path text : string) : M (option string) :=
  fun w =>
    match refused w path with
    | Some msg => (Ok (Some msg), w)
    | None =>
        (Ok None,
         mkWorld (fun p => if String.eqb p path then Some text else files w p)
           (refused w) (stdout w) (stderr w))
    end.

End IO.

Notation "x <<- m ;; k" := (IO.bindM m (fun x => k))
  (at level 61, m at next level, right associativity).
Notation "m ;;; k" := (IO.bindM m (fun _ => k))
  (at level 61, right associativity).

(** ** Splitting at a separator *)

Module Sep.

(** [s.split(sep)] for a separator of one character. *)
Fixpoint split (sep : ascii) (s : string) : list string :=
  match s with
  | EmptyString => [""]
  | String c s' =>
      if Ascii.eqb c sep then "" :: split sep s'
      else
        match split sep s' with
        | x :: rest => String c x :: rest
        | [] => [String c ""]
        end
  end.


End Sep.

(** ** Paths

    [pathlib.Path] on a POSIX system, as far as the analyzer uses it: the
    text is parsed into a root and the parts that follow it, and printed
    from them, so that [./logs//a.txt] is printed [logs/a.txt]. *)

Module PyPath.

Record Path : Type := mkPath {
  root : string;
  parts : list string
}.

Fixpoint lstrip_sep (s : string) : string :=
  match s with
  | String c s' => if Ascii.eqb c "/" then lstrip_sep s' else s
  | EmptyString => s
  end.

(** The root is [//] after exactly two leading separators, [/] after one
    or after three and more. *)
Definition splitroot (part : string) : string * string :=
  match part with
  | String c _ =>
      if Ascii.eqb c "/" then
        let stripped := lstrip_sep part in
        if Nat.eqb (String.length part - String.length stripped) 2
        then ("//", stripped) else ("/", stripped)
      else ("", part)
  | EmptyString => ("", part)
  end.

(** [Path(s)]: empty parts and the parts [.] are dropped. *)
Definition of_str (s : string) : Path :=
  let '(root, rel) := splitroot s in
  mkPath root
    (filter (fun x => negb (String.eqb x "") && negb (String.eqb x "."))
       (Sep.split "/" rel)).

(** [str(p)], which is also what [open] and [exists] are given. *)
Definition str (p : Path) : string :=
  match root p, parts p with
  | EmptyString, [] => "."
  | r, ps => r ++ PyStr.join "/" ps
  end.

(** [p.name]: the last part, and the empty string when there is none. *)
Definition name (p : Path) : string := last (parts p) "".

End PyPath.

(** ** The analyzer object, [export_csv] and [main] *)

Module Analyzer.
Import IO.

Record LatencyAnalyzer : Type := mk {
  log_file : PyPath.Path;
  samples : list LatencySample
}.

(** [LatencyAnalyzer(log_file)] *)
Definition init (log_file : string) : LatencyAnalyzer :=
  mk (PyPath.of_str log_file) [].

Definition parse_logs (self : LatencyAnalyzer) : M (bool * LatencyAnalyzer) :=
  present <<- exists_ (PyPath.str (log_file self)) ;;
  if negb present then
    eprint ("Error: Log file '" ++ PyPath.str (log_file self) ++ "' not found") ;;;
    ret (false, self)
  else
    print ("Parsing log file: " ++ PyPath.str (log_file self)) ;;;
    content <<- read (PyPath.str (log_file self)) ;;
    found <<- lift (Extract.extend (samples self)
                      (Regex.findall Extract.pattern content)) ;;
    print ("Found " ++ PyStr.of_int (Z.of_nat (List.length found))
             ++ " latency statistics entries" ++ PyStr.nl) ;;;
    ret (negb (Nat.eqb (List.length found) 0), mk (log_file self) found).

Definition generate_report (self : LatencyAnalyzer) (detailed : bool)
  : res string :=
  Report.generate_report (samples self) (PyPath.name (log_file self))
    detailed.

Definition csv_header : string :=
  "timestamp,sample_count,total_samples,p50_ms,p95_ms,p99_ms,meets_requirement"
    ++ PyStr.nl.

Definition csv_row (sample : LatencySample) : string :=
  timestamp sample ++ "," ++ PyStr.of_int (sample_count sample) ++ ","
    ++ PyStr.of_int (total_samples sample) ++ ","
    ++ PyStr.repr (p50_ms sample) ++ "," ++ PyStr.repr (p95_ms sample) ++ ","
    ++ PyStr.repr (p99_ms sample) ++ ","
    ++ PyStr.of_bool (meets_requirement sample) ++ PyStr.nl.

Definition csv_text (l : list LatencySample) : string :=
  csv_header ++ String.concat "" (map csv_row l).

Definition export_csv (self : LatencyAnalyzer) (output_file : string) : M bool :=
  match samples self with
  | [] => eprint "No samples to export" ;;; ret false
  | _ =>
      failure <<- write output_file (csv_text (samples self)) ;;
      match failure with
      | None =>
          print (PyStr.nl ++ "Exported "
                   ++ PyStr.of_int (Z.of_nat (List.length (samples self)))
                   ++ " samples to " ++ output_file) ;;;
          ret true
      | Some e => eprint ("Error writing CSV: " ++ e) ;;; ret false
      end
  end.

(** The parsed command line. *)
Record Args : Type := mkArgs {
  arg_log_file : string;
  arg_detailed : bool;
  arg_csv : option string
}.

(** [main]; its value is the argument of [sys.exit]. *)
Definition main (args : Args) : M Z :=
  let analyzer := init (arg_log_file args) in
  parsed <<- parse_logs analyzer ;;
  let '(found, analyzer) := parsed in
  if negb found then
    eprint (PyStr.nl ++ "No latency statistics found in log file.") ;;;
    eprint "Make sure the log contains LatencyService output." ;;;
    ret 1
  else
    report <<- lift (generate_report analyzer (arg_detailed args)) ;;
    print report ;;;
    match arg_csv args with
    | Some (String c p) => export_csv analyzer (String c p) ;;; ret tt
    | _ => ret tt
    end ;;;
    ret (if PyStr.contains Report.pass_text report then 0 else 1).

(** The exit status of the process: an exception that reaches the top
    ends it with status 1. *)
Definition exit_code (args : Args) (w : World) : Z :=
  match fst (main args w) with
  | Ok status => status
  | Raise _ => 1
  end.

End Analyzer.

(** ** Reading a CSV text back

    The lines of a text are what line feeds separate, the fields of a line
    what commas separate; the text after the last line feed is a line
    too, the empty one when the text ends in a line feed. *)

Module Csv.

Definition lines (text : string) : list string := Sep.split "010" text.
Definition fields (line : string) : list string := Sep.split "," line.
Definition table (text : string) : list (list string) :=
  map fields (lines text).

(** The header row that [export_csv] writes, field by field. *)
Definition columns : list string :=
  ["timestamp"; "sample_count"; "total_samples"; "p50_ms"; "p95_ms";
   "p99_ms"; "meets_requirement"].


End Csv.

(** ** The trend check as the specification words it

    Modelled on the specification's sentence, to be compared with
    [Report.late_avg] and [Report.trend_fires]: [late_avg] is the mean of
    the last [n // 3] values. *)

Module TrendSpec.
Import Builtins Report.

Definition last_third (l : list float) : list float :=
  skipn (List.length l - List.length l / 3) l.

Definition late_avg_spec (samples : list LatencySample) : float :=
  mean (last_third (p95_values samples)).

Definition early_avg_spec (samples : list LatencySample) : float :=
  mean (firstn (List.length samples / 3) (p95_values samples)).

Definition trend_fires_spec (samples : list LatencySample) : bool :=
  (5 <=? Z.of_nat (List.length samples)) &&
  gt (late_avg_spec samples) (mul (early_avg_spec samples) (Parse.literal "1.2")).

End TrendSpec.

(** ** What it is for the validation section to show a rule

    The section shows the status of a rule when the status can be read off
    its text: two runs with the same section agree on the rule. *)

Module Shows.
Import Report.

Definition rule : Type := list LatencySample -> bool.

Definition no_failing_windows : rule := fun s => failing_windows s =? 0.
Definition peak_under_threshold : rule :=
  fun s => lt (max_p95 s) (Parse.literal "100.0").
Definition average_under_threshold : rule :=
  fun s => lt (avg_p95 s) (Parse.literal "100.0").
Definition sufficient_volume : rule := fun s => 3600 <=? total_samples s.

(** The section determines a quantity of the run. *)
Definition determines {A : Type} (f : list LatencySample -> A) : Prop :=
  forall a b : list LatencySample,
    a <> [] -> b <> [] ->
    validation_section a = validation_section b -> f a = f b.

Definition shows (r : rule) : Prop := determines r.

End Shows.

(** ** Which warning a line of the warnings list is, by its fixed text *)

Module Kind.

Definition is_trend (w : string) : bool :=
  PyStr.startswith "⚠️  P95 increasing over time" w.

Definition is_exceeded (w : string) : bool :=
  PyStr.startswith "⚠️  P95 exceeded 100ms" w.

Definition is_close (w : string) : bool :=
  PyStr.startswith "⚠️  P95 close to threshold" w.

End Kind.

(** ** Inputs used below *)

Module Inputs.
Import PyStr.

(** A window with the given cumulative count, P95 and status. *)
Definition window (total : Z) (p95 : string) (ok : bool) : LatencySample :=
  Sample.mk "01-13 14:30:00.123" 60 total
    (Parse.literal "40.0") (Parse.literal p95) (Parse.literal "120.0") ok.

(** Five windows with the same P95. *)
Definition flat5 : list LatencySample :=
  [window 720 "50.0" true; window 1440 "50.0" true; window 2160 "50.0" true;
   window 2880 "50.0" true; window 3600 "50.0" true].

Definition healthy3 : list LatencySample :=
  [window 1200 "50.0" true; window 2400 "60.0" true; window 3600 "70.0" true].

Definition at_threshold : list LatencySample :=
  [window 1800 "70.0" true; window 3600 "100.0" true].

(** Two runs over the peak, one with its average under the threshold. *)
Definition both_high : list LatencySample :=
  [window 1800 "120.0" false; window 3600 "120.0" false].
Definition one_high : list LatencySample :=
  [window 1800 "120.0" false; window 3600 "50.0" false].

Definition block (p50 status : string) : string :=
  "01-13 14:30:00.123 I/flutter [LatencyService] Latency Statistics:" ++ nl ++
  "01-13 14:30:00.123 I/flutter   Samples: 456 (Total: 1234)" ++ nl ++
  "01-13 14:30:00.123 I/flutter   P50: " ++ p50 ++ " ms" ++ nl ++
  "01-13 14:30:00.123 I/flutter   P95: 78.91 ms" ++ nl ++
  "01-13 14:30:00.123 I/flutter   P99: 92.45 ms" ++ nl ++
  "01-13 14:30:00.123 I/flutter   " ++ status ++ " P95 latency" ++ nl.

(** A log of one well-formed block, short of the 3600 samples. *)
Definition short_log : string := block "45.23" "✓".

(** The sample of that block. *)
Definition short_samples : list LatencySample :=
  [Sample.mk "01-13 14:30:00.123" 456 1234 (Parse.literal "45.23")
     (Parse.literal "78.91") (Parse.literal "92.45") true].

(** A healthy block followed by one whose P50 has two dots. *)
Definition two_dots_log : string := block "45.23" "✓" ++ block "1.2.3" "✓".

Definition world (log : string) (unwritable : string) : IO.World :=
  IO.mkWorld
    (fun p => if String.eqb p "latency.txt" then Some log else None)
    (fun p => if String.eqb p unwritable
              then Some "[Errno 13] Permission denied" else None)
    [] [].

(** [short_log] on disk, every path writable, and the same with
    [out.csv] refused. *)
Definition short_world : IO.World := world short_log "".

Definition args : Analyzer.Args := Analyzer.mkArgs "latency.txt" false None.




(** An analyzer that has parsed [short_log]. *)
Definition parsed : Analyzer.LatencyAnalyzer :=
  Analyzer.mk (PyPath.of_str "latency.txt") short_samples.

Definition match_of (status : string) : Regex.groups :=
  fun i =>
    nth i ["";  "01-13 14:30:00.123"; "456"; "1234"; "45.23"; "78.91";
           "92.45"; status] "".

End Inputs.

(** ** The order of floats

    [SFcompare] orders the floats that are not NaN as the triples of
    [rank], compared left to right. *)

Module FloatOrder.

Definition is_nan (x : float) : bool :=
  match x with
  | S754_nan => true
  | _ => false
  end.

Definition rank (x : float) : option (Z * Z * Z) :=
  match x with
  | S754_nan => None
  | S754_infinity true => Some (0, 0, 0)
  | S754_finite true m e => Some (1, - e, Zneg m)
  | S754_zero _ => Some (2, 0, 0)
  | S754_finite false m e => Some (3, e, Zpos m)
  | S754_infinity false => Some (4, 0, 0)
  end.

Definition lex (a b : Z * Z * Z) : comparison :=
  let '(a1, a2, a3) := a in
  let '(b1, b2, b3) := b in
  match a1 ?= b1 with
  | Eq => match a2 ?= b2 with
          | Eq => a3 ?= b3
          | c => c
          end
  | c => c
  end.

Definition lex_lt (a b : Z * Z * Z) : Prop :=
  let '(a1, a2, a3) := a in
  let '(b1, b2, b3) := b in
  a1 < b1 \/ (a1 = b1 /\ (a2 < b2 \/ (a2 = b2 /\ a3 < b3))).

(** Neither NaN nor below zero; infinity is allowed. *)
Definition nonneg (x : float) : bool :=
  match x with
  | S754_zero _ => true
  | S754_finite false _ _ => true
  | S754_infinity false => true
  | _ => false
  end.

End FloatOrder.

(** ** The heart rate monitor ([scripts/ble_hr_monitor.py])

    The functions that do not wait on the radio: the decoder of a heart
    rate measurement, the notification callback and the choice of a
    device among the discovered ones.  A [bytearray] is a list of bytes;
    indexing it past its end raises [IndexError]. *)

Module Ble.

Inductive outcome (A : Type) : Type :=
| Value (a : A)
| IndexError.

Arguments Value {A} a.
Arguments IndexError {A}.

Definition then_ {A B : Type} (m : outcome A) (f : A -> outcome B) : outcome B :=
  match m with
  | Value a => f a
  | IndexError => IndexError
  end.

(** [data[i]] *)
Definition item (data : list Byte.byte) (i : nat) : outcome Z :=
  match nth_error data i with
  | Some b => Value (Z.of_N (Byte.to_N b))
  | None => IndexError
  end.

(** The result dict, with its two keys. *)
Record Measurement : Type := mkMeasurement {
  bpm : Z;
  rr_intervals : list float
}.

(** [(lo | hi << 8) / 1024.0 * 1000] *)
Definition raw16 (lo hi : Z) : Z := Z.lor lo (Z.shiftl hi 8).

Definition rr_ms (lo hi : Z) : float :=
  mul (div (Parse.int_literal (raw16 lo hi)) (Parse.literal "1024.0"))
    (Parse.int_literal 1000).

(** The value of a byte. *)
Definition value (b : Byte.byte) : Z := Z.of_N (Byte.to_N b).

(** The intervals of the byte pairs of a list, a last single byte left
    out. *)
Fixpoint pairs (l : list Byte.byte) : list float :=
  match l with
  | lo :: hi :: rest => rr_ms (value lo) (value hi) :: pairs rest
  | _ => []
  end.

(** The [while] loop; each turn moves [offset] by two, so [len(data)]
    turns are enough. *)
Fixpoint rr_loop (fuel : nat) (data : list Byte.byte) (offset : nat)
  (rr_intervals : list float) : outcome (list float) :=
  match fuel with
  | O => Value rr_intervals
  | S fuel' =>
      if (offset + 1 <? List.length data)%nat then
        then_ (item data offset) (fun lo =>
        then_ (item data (offset + 1)) (fun hi =>
        rr_loop fuel' data (offset + 2) (rr_intervals ++ [rr_ms lo hi])%list))
      else Value rr_intervals
  end.

Definition parse_heart_rate (data : list Byte.byte) : outcome Measurement :=
  if (List.length data <? 2)%nat then Value (mkMeasurement 0 [])
  else
    then_ (item data 0) (fun flags =>
    let hr_format := Z.land flags 1 in
    let rr_present := Z.land (Z.shiftr flags 4) 1 in
    then_ (if hr_format =? 0
           then then_ (item data 1) (fun b => Value (b, 2%nat))
           else then_ (item data 1) (fun b1 =>
                then_ (item data 2) (fun b2 =>
                Value (Z.lor b1 (Z.shiftl b2 8), 3%nat))))
      (fun bpm_offset =>
    let '(bpm, offset) := bpm_offset in
    then_ (if rr_present =? 0 then Value []
           else rr_loop (List.length data) data offset [])
      (fun rr_intervals =>
    Value (mkMeasurement bpm rr_intervals)))).

(** [hr_callback]: the line it prints; [timestamp] is the clock's
    [%H:%M:%S]. *)
Definition hr_callback (timestamp : string) (data : list Byte.byte)
  : outcome string :=
  then_ (parse_heart_rate data) (fun result =>
  let bpm := bpm result in
  if (30 <? bpm) && (bpm <? 220) then
    let rr_str :=
      match rr_intervals result with
      | [] => ""
      | rr :: _ => "  RR: " ++ PyStr.fixed 0 rr ++ "ms"
      end in
    Value (timestamp ++ "    " ++ PyStr.rjust 3 (PyStr.of_int bpm) ++ " BPM"
             ++ rr_str)
  else
    Value (timestamp ++ "    --- (invalid: " ++ PyStr.of_int bpm ++ ")")).

(** A discovered device: its name, which may be missing, and address. *)
Record Device : Type := mkDevice {
  name : option string;
  address : string
}.

Section Scan.
(** [str.upper] and [str.lower] *)
Variables upper lower : string -> string.

(** The truth value of an optional filter: [None] and the empty string
    are false. *)
Definition given (filter : option string) : option string :=
  match filter with
  | Some (String c s) => Some (String c s)
  | _ => None
  end.

Definition mac_matches (mac_filter : option string) (device : Device) : bool :=
  match given mac_filter with
  | Some mac => String.eqb (upper (address device)) (upper mac)
  | None => false
  end.

Definition name_matches (name_filter : option string) (device : Device) : bool :=
  match given name_filter with
  | Some wanted =>
      PyStr.contains (lower wanted)
        (lower (match name device with Some n => n | None => "" end))
  | None => false
  end.

(** The loop of [scan_for_device] over the discovered devices. *)
Fixpoint scan_for_device (name_filter mac_filter : option string)
  (devices : list Device) : option Device :=
  match devices with
  | [] => None
  | device :: rest =>
      if mac_matches mac_filter device then Some device
      else if name_matches name_filter device then Some device
      else scan_for_device name_filter mac_filter rest
  end.
End Scan.

End Ble.

(** ** The monitor's entry point

    What [main] does before it connects: it picks the target from the
    command line and scans for it. *)

Module BleMain.

Definition default_mac : string := "F4:8C:C9:1B:E6:1B".
Definition default_name : string := "HW9".

(** [(device_name, device_mac)] after the command line is read. *)
Definition target (argv : list string) : string * string :=
  match argv with
  | _ :: arg :: _ =>
      if PyStr.contains ":" arg then (default_name, arg)
      else (arg, default_mac)
  | _ => (default_name, default_mac)
  end.

Section Scan.
Variables upper lower : string -> string.

(** The device [main] goes on with; with [None] it prints
    [Device not found!] and returns 1. *)
Definition device (argv : list string) (devices : list Ble.Device)
  : option Ble.Device :=
  let '(device_name, device_mac) := target argv in
  Ble.scan_for_device upper lower (Some device_name) (Some device_mac)
    devices.
End Scan.

End BleMain.

(** ** More kinds of warning lines and more inputs *)

Module MoreKinds.

Definition is_insufficient (w : string) : bool :=
  PyStr.startswith "⚠️  Insufficient samples" w.

End MoreKinds.

Module Header.

(** The literal every block starts with, and what [main] prints when no
    block was found. *)
Definition header : string := "[LatencyService] Latency Statistics:".

Definition not_found_lines : list string :=
  [PyStr.nl ++ "No latency statistics found in log file.";
   "Make sure the log contains LatencyService output."].

End Header.

Module Running.

(** The loop of [max] from its first item on. *)
Definition running_max (x : float) (rest : list float) : float :=
  fold_left (fun m y => if lt m y then y else m) rest x.

End Running.

Module MoreInputs.

(** Three windows, the middle one failing. *)
Definition mixed3 : list LatencySample :=
  [Inputs.window 1200 "50.0" true; Inputs.window 2400 "130.0" false;
   Inputs.window 3600 "70.0" true].

(** A log of one healthy block that reaches 3600 samples. *)
Definition full_log : string :=
  "01-13 14:30:00.123 [LatencyService] Latency Statistics:" ++ PyStr.nl
    ++ "  Samples: 60 (Total: 3600)" ++ PyStr.nl
    ++ "  P50: 45.23 ms" ++ PyStr.nl
    ++ "  P95: 78.91 ms" ++ PyStr.nl
    ++ "  P99: 92.45 ms" ++ PyStr.nl
    ++ "  ✓ P95 latency meets <100ms requirement" ++ PyStr.nl.

Definition full_samples : list LatencySample :=
  [Sample.mk "01-13 14:30:00.123" 60 3600 (Parse.literal "45.23")
     (Parse.literal "78.91") (Parse.literal "92.45") true].

(** Heart rate measurements: 72 bpm in eight bits with two intervals and
    a byte left over; 300 bpm in sixteen bits; a sixteen-bit flag on a
    packet of two bytes. *)
Definition packet8 : list Byte.byte :=
  [Byte.x10; Byte.x48; Byte.x00; Byte.x04; Byte.x52; Byte.x03; Byte.xff].
Definition packet16 : list Byte.byte := [Byte.x01; Byte.x2c; Byte.x01].
Definition packet_short16 : list Byte.byte := [Byte.x01; Byte.x48].

(** What [packet8] holds: 72 beats per minute and two intervals. *)
Definition measurement8 : Ble.Measurement :=
  Ble.mkMeasurement 72 [Ble.rr_ms 0 4; Ble.rr_ms 82 3].

(** Case mapping on the letters of ASCII. *)
Fixpoint ascii_upper (s : string) : string :=
  match s with
  | EmptyString => ""
  | String c s' =>
      let k := N_of_ascii c in
      String (if ((97 <=? k) && (k <=? 122))%N then ascii_of_N (k - 32) else c)
        (ascii_upper s')
  end.

Fixpoint ascii_lower (s : string) : string :=
  match s with
  | EmptyString => ""
  | String c s' =>
      let k := N_of_ascii c in
      String (if ((65 <=? k) && (k <=? 90))%N then ascii_of_N (k + 32) else c)
        (ascii_lower s')
  end.

Definition devices : list Ble.Device :=
  [Ble.mkDevice None "AA:BB:CC:00:11:22";
   Ble.mkDevice (Some "Polar H10") "c0:ff:ee:00:00:01";
   Ble.mkDevice (Some "Coospo hw9 1234") "F4:8C:C9:1B:E6:1B"].

(** A log of another subsystem, and a world that holds it. *)
Definition noise_log : string :=
  "01-13 14:30:00.123 I/flutter boot completed" ++ PyStr.nl
    ++ "01-13 14:30:01.000 W/Battery: P95: 12 ms" ++ PyStr.nl.

Definition noise_world : IO.World := Inputs.world noise_log "".

(** Command lines that name the log file by a path not in normal form. *)
Definition absent_args : Analyzer.Args :=
  Analyzer.mkArgs "./logs//absent.txt" true (Some "out.csv").
Definition dotted_args : Analyzer.Args :=
  Analyzer.mkArgs "./latency.txt" false None.

(** A log whose only block counts more samples than a float can hold. *)
Definition huge_total : string := PyStr.rep "9" 400.

Definition huge_log : string :=
  "01-13 14:30:00.123 [LatencyService] Latency Statistics:" ++ PyStr.nl
    ++ "  Samples: 456 (Total: " ++ huge_total ++ ")" ++ PyStr.nl
    ++ "  P50: 45.23 ms" ++ PyStr.nl
    ++ "  P95: 78.91 ms" ++ PyStr.nl
    ++ "  P99: 92.45 ms" ++ PyStr.nl
    ++ "  ✓ P95 latency meets <100ms requirement" ++ PyStr.nl.

(** Twelve healthy windows with 3600 samples at the end. *)
Definition healthy12 : list LatencySample :=
  map (fun k => Inputs.window (300 * k) "50.0" true)
    [1; 2; 3; 4; 5; 6; 7; 8; 9; 10; 11; 12].

End MoreInputs.

(** ** Exact values of floats *)

Module Exact.

(** [ratio f num k]: the float [f] is exactly the rational
    [num / 2 ^ k]. *)
Definition ratio (f : float) (num : Z) (k : Z) : bool :=
  match f with
  | S754_zero _ => num =? 0
  | S754_finite s m e =>
      let v := if s then Z.neg m else Z.pos m in
      if 0 <=? e + k then v * 2 ^ (e + k) =? num
      else v =? num * 2 ^ (- (e + k))
  | _ => false
  end.

End Exact.

(** * Properties *)

(** ** The aggregator *)

Section Aggregator.
Import Report.

(** The aggregate reads the last sample only. *)
Lemma total_samples_snoc (earlier : list LatencySample) (s : LatencySample) :
  total_samples (earlier ++ [s])%list = Sample.total_samples s.
Proof.
  unfold total_samples.
  rewrite map_app. simpl.
  apply last_last.
Qed.

(** Every non-empty sequence ends in a last sample. *)
Lemma nonempty_snoc {A : Type} (l : list A) :
  l <> [] -> exists earlier x, l = (earlier ++ [x])%list.
Proof.
  intros H. destruct (exists_last H) as [earlier [x E]].
  exists earlier, x. exact E.
Qed.

(** C5: the aggregated [total_samples] of a non-empty sequence is the
    [total_samples] of its last sample, and stays so whatever samples come
    before the last: no count of an earlier sample enters it, so it is not
    a sum over the samples. *)
Theorem total_samples_is_last (samples : list LatencySample) :
  samples <> [] ->
  exists earlier s,
    samples = (earlier ++ [s])%list /\
    total_samples samples = Sample.total_samples s /\
    forall others, total_samples (others ++ [s])%list = Sample.total_samples s.
Proof.
  intros N. destruct (nonempty_snoc samples N) as [earlier [s ->]].
  exists earlier, s. split; [reflexivity |]. split.
  - apply total_samples_snoc.
  - intros others. apply total_samples_snoc.
Qed.

Lemma total_samples_is_last_witness :
  Inputs.flat5 <> [] /\
  exists earlier s,
    Inputs.flat5 = (earlier ++ [s])%list /\
    total_samples Inputs.flat5 = Sample.total_samples s /\
    forall others, total_samples (others ++ [s])%list = Sample.total_samples s.
Proof.
  assert (N : Inputs.flat5 <> []) by discriminate.
  exact (conj N (total_samples_is_last Inputs.flat5 N)).
Defined.

(** On [flat5] the sum of the cumulative counts is 10800 and the sum of
    the window counts is 300; the aggregate is neither. *)
Example total_samples_flat5 :
  total_samples Inputs.flat5 = 3600 /\
  fold_right Z.add 0 (map Sample.total_samples Inputs.flat5) = 10800 /\
  fold_right Z.add 0 (map sample_count Inputs.flat5) = 300.
Proof. repeat split. Qed.

End Aggregator.

(** ** The validation gate *)

Section Gate.
Import Report.

(** The verdict line of the validation section reads PASS exactly when
    [validation_passed] holds. *)
Lemma verdict_line_pass (samples : list LatencySample) :
  In ("Overall Validation: " ++ pass_text) (validation_section samples) <->
  validation_passed samples = true.
Proof.
  unfold validation_section. split.
  - intros H.
    repeat (destruct H as [H | H]; [try discriminate H |]); [| destruct H].
    destruct (validation_passed samples); [reflexivity | discriminate H].
  - intros ->. do 5 right. left. reflexivity.
Qed.

(** C2: the overall result is PASS exactly when the four rules hold
    together, and breaking any one of them makes it FAIL; the result is
    what the verdict line of the report shows. *)
Theorem validation_passed_iff (samples : list LatencySample) :
  samples <> [] ->
  (validation_passed samples = true <->
     failing_windows samples = 0 /\
     lt (max_p95 samples) (Parse.literal "100.0") = true /\
     lt (avg_p95 samples) (Parse.literal "100.0") = true /\
     3600 <= total_samples samples) /\
  (failing_windows samples <> 0 \/
   lt (max_p95 samples) (Parse.literal "100.0") = false \/
   lt (avg_p95 samples) (Parse.literal "100.0") = false \/
   total_samples samples < 3600 ->
   validation_passed samples = false) /\
  (In ("Overall Validation: " ++ pass_text) (validation_section samples) <->
   validation_passed samples = true).
Proof.
  intros _.
  split; [| split; [| apply verdict_line_pass]]; unfold validation_passed.
  - rewrite !andb_true_iff, Z.eqb_eq, Z.leb_le. tauto.
  - intros [H | [H | [H | H]]].
    + apply Z.eqb_neq in H. rewrite H. reflexivity.
    + rewrite H, ?andb_false_r. reflexivity.
    + rewrite H, ?andb_false_r. reflexivity.
    + apply Z.leb_gt in H. rewrite H, ?andb_false_r. reflexivity.
Qed.

Lemma validation_passed_iff_witness :
  Inputs.healthy3 <> [] /\
  (validation_passed Inputs.healthy3 = true <->
     failing_windows Inputs.healthy3 = 0 /\
     lt (max_p95 Inputs.healthy3) (Parse.literal "100.0") = true /\
     lt (avg_p95 Inputs.healthy3) (Parse.literal "100.0") = true /\
     3600 <= total_samples Inputs.healthy3).
Proof.
  assert (N : Inputs.healthy3 <> []) by discriminate.
  exact (conj N (proj1 (validation_passed_iff Inputs.healthy3 N))).
Defined.

(** The rules in terms of the samples: no window fails when every sample
    meets the requirement. *)
Lemma failing_windows_zero (samples : list LatencySample) :
  failing_windows samples = 0 <->
  Forall (fun s => meets_requirement s = true) samples.
Proof.
  unfold failing_windows. induction samples as [| s rest IH]; simpl.
  - split; auto.
  - destruct (meets_requirement s) eqn:E; simpl.
    + rewrite IH. split; intros H.
      * constructor; assumption.
      * inversion H; assumption.
    + split; intros H.
      * lia.
      * inversion H; congruence.
Qed.

(** The verdict line of the report says PASS exactly when the gate
    holds. *)
Lemma verdict_pass (b : bool) : verdict b = pass_text <-> b = true.
Proof. destruct b; simpl; split; intros H; try reflexivity; discriminate H. Qed.

(** 3600 samples, P95 values 50, 60 and 70, every window passing: PASS,
    with the warning of a short session, three blocks being 1.5 minutes. *)
Example healthy3_passes :
  validation_passed Inputs.healthy3 = true /\
  warnings Inputs.healthy3 = [short_warning Inputs.healthy3].
Proof. split; vm_compute; reflexivity. Qed.

(** A single block with 100 samples in total and a P95 of 120, marked as
    a warning: FAIL, with the exceeded and the insufficient-sample
    warnings among the warnings. *)
Example single_bad_block (bad := [Inputs.window 100 "120.0" false]) :
  validation_passed bad = false /\
  failing_windows bad = 1 /\
  warnings bad
  = [exceeded_warning bad; average_warning bad; insufficient_warning bad;
     short_warning bad].
Proof. repeat match goal with |- _ /\ _ => split end; vm_compute; reflexivity. Qed.

End Gate.

(** ** The warnings *)

Section Warnings.
Import Report Kind.

(** A walk through the six tests of [warnings]. *)
Ltac each_warning H :=
  unfold warnings in H; cbn [List.concat] in H; cbv iota in H;
  repeat match goal with
         | H' : In _ (_ ++ _)%list |- _ =>
             apply in_app_or in H'; destruct H' as [H' | H']
         | H' : In _ (if ?c then _ else _) |- _ => destruct c
         | H' : In _ (_ :: _) |- _ => destruct H' as [H' | H']
         | H' : In _ [] |- _ => destruct H'
         end;
  subst.

Lemma trend_fires_short (samples : list LatencySample) :
  (List.length samples < 5)%nat -> trend_fires samples = false.
Proof.
  intros H. unfold trend_fires, n, p95_values.
  rewrite length_map.
  replace (5 <=? Z.of_nat (List.length samples)) with false
    by (symmetry; apply Z.leb_gt; lia).
  reflexivity.
Qed.

(** C9: with fewer than five P95 values the trend test is not taken, and
    no line of the warnings is the increasing-trend warning, whatever the
    values. *)
Theorem no_trend_warning_below_five (samples : list LatencySample) :
  (List.length samples < 5)%nat ->
  trend_fires samples = false /\
  forall w, In w (warnings samples) -> is_trend w = false.
Proof.
  intros H. pose proof (trend_fires_short samples H) as T.
  split; [exact T |].
  intros w Hw. unfold warnings in Hw. rewrite T in Hw.
  each_warning Hw; reflexivity.
Qed.

Lemma no_trend_warning_below_five_witness :
  (List.length Inputs.healthy3 < 5)%nat /\
  trend_fires Inputs.healthy3 = false.
Proof.
  assert (L : (List.length Inputs.healthy3 < 5)%nat) by (simpl; lia).
  exact (conj L (proj1 (no_trend_warning_below_five Inputs.healthy3 L))).
Defined.

(** Four windows whose P95 grows eightfold raise only the warning of a
    short session. *)
Example rising4_no_trend :
  let rising4 := [Inputs.window 900 "10.0" true; Inputs.window 1800 "20.0" true;
                  Inputs.window 2700 "40.0" true; Inputs.window 3600 "80.0" true] in
  warnings rising4 = [short_warning rising4].
Proof. reflexivity. Qed.

Lemma startswith_append (p s : string) : PyStr.startswith p (p ++ s) = true.
Proof.
  induction p as [| c p IH]; simpl.
  - reflexivity.
  - rewrite Ascii.eqb_refl. exact IH.
Qed.

(** C10: when the greatest P95 is exactly 100.0 the run fails, the
    exceeded warning is not among the warnings, and the close-to-threshold
    warning is. *)
Theorem peak_at_threshold (samples : list LatencySample) :
  samples <> [] ->
  max_p95 samples = Parse.literal "100.0" ->
  validation_passed samples = false /\
  (forall w, In w (warnings samples) -> is_exceeded w = false) /\
  In (close_warning samples) (warnings samples) /\
  is_close (close_warning samples) = true.
Proof.
  intros _ H.
  assert (L : lt (max_p95 samples) (Parse.literal "100.0") = false)
    by (rewrite H; vm_compute; reflexivity).
  assert (G : gt (max_p95 samples) (Parse.literal "100.0") = false)
    by (rewrite H; vm_compute; reflexivity).
  assert (C : gt (max_p95 samples) (Parse.literal "90.0") = true)
    by (rewrite H; vm_compute; reflexivity).
  split; [| split; [| split]].
  - unfold validation_passed. rewrite L, ?andb_false_r. reflexivity.
  - intros w Hw. unfold warnings in Hw. rewrite G, C in Hw.
    each_warning Hw; reflexivity.
  - unfold warnings. rewrite G, C. cbn [List.concat]. apply in_or_app.
    left. left. reflexivity.
  - unfold is_close, close_warning.
    apply (startswith_append "⚠️  P95 close to threshold"
             (" (max: " ++ PyStr.fixed 2 (max_p95 samples) ++ "ms)")).
Qed.

Lemma peak_at_threshold_witness :
  Inputs.at_threshold <> [] /\
  max_p95 Inputs.at_threshold = Parse.literal "100.0" /\
  validation_passed Inputs.at_threshold = false.
Proof.
  assert (N : Inputs.at_threshold <> []) by discriminate.
  assert (E : max_p95 Inputs.at_threshold = Parse.literal "100.0")
    by (vm_compute; reflexivity).
  exact (conj N (conj E (proj1 (peak_at_threshold Inputs.at_threshold N E)))).
Defined.

End Warnings.

(** ** The trend check *)

Section Trend.
Import Builtins Report TrendSpec.

(** The early slice holds the first [n // 3] values. *)
Lemma early_slice_length (l : list float) :
  List.length (slice_to l (Z.of_nat (List.length l) / 3))
  = Z.to_nat (Z.of_nat (List.length l) / 3).
Proof.
  unfold slice_to. rewrite length_firstn.
  apply Nat.min_l.
  apply Nat2Z.inj_le. rewrite Z2Nat.id.
  - apply Z.div_le_upper_bound; lia.
  - apply Z.div_pos; lia.
Qed.

(** The late slice starts at index [-n // 3], the floor of [-n / 3], and
    so holds the last [(n + 2) // 3] values: one more than [n // 3] unless
    3 divides [n]. *)
Lemma late_slice_length (l : list float) :
  List.length (slice_from l (- Z.of_nat (List.length l) / 3))
  = Z.to_nat ((Z.of_nat (List.length l) + 2) / 3).
Proof.
  unfold slice_from. rewrite length_skipn.
  set (k := Z.of_nat (List.length l)).
  assert (K : 0 <= k) by (unfold k; lia).
  destruct (- k / 3 <? 0) eqn:E.
  - apply Nat2Z.inj. rewrite Nat2Z.inj_sub.
    + rewrite !Z2Nat.id; fold k.
      * assert (H : - k / 3 = - ((k + 2) / 3))
          by (Z.to_euclidean_division_equations; lia).
        rewrite H. Z.to_euclidean_division_equations; lia.
      * Z.to_euclidean_division_equations; lia.
      * lia.
    + apply Nat2Z.inj_le. rewrite Z2Nat.id; fold k; [| lia].
      Z.to_euclidean_division_equations; lia.
  - apply Z.ltb_ge in E.
    assert (k = 0) by (Z.to_euclidean_division_equations; lia).
    assert (Z0 : (List.length l = 0)%nat) by (unfold k in *; lia).
    subst k. rewrite Z0. reflexivity.
Qed.

(** C3, at five equal P95 values: the code sums the last two of them and
    divides by one, so [late_avg] is 100.0 where the mean of the last
    [n // 3] values is 50.0, and the warning fires on a flat series, which
    the test the specification words does not. *)
Theorem trend_on_flat5 :
  n Inputs.flat5 / 3 = 1 /\
  slice_from (p95_values Inputs.flat5) (- n Inputs.flat5 / 3)
    = [Parse.literal "50.0"; Parse.literal "50.0"] /\
  early_avg Inputs.flat5 = Parse.literal "50.0" /\
  late_avg Inputs.flat5 = Parse.literal "100.0" /\
  late_avg_spec Inputs.flat5 = Parse.literal "50.0" /\
  trend_fires Inputs.flat5 = true /\
  trend_fires_spec Inputs.flat5 = false /\
  In (trend_warning Inputs.flat5) (warnings Inputs.flat5).
Proof.
  repeat match goal with |- _ /\ _ => split end;
    try (vm_compute; reflexivity).
  vm_compute. right. left. reflexivity.
Qed.

(** When 3 divides [n] the two slices are the same list. *)
Lemma late_slice_spec (l : list float) :
  (Z.of_nat (List.length l) mod 3 = 0) ->
  slice_from l (- Z.of_nat (List.length l) / 3) = last_third l.
Proof.
  intros H. unfold slice_from, last_third.
  set (k := Z.of_nat (List.length l)) in *.
  assert (K : 0 <= k) by (unfold k; lia).
  f_equal.
  destruct (- k / 3 <? 0) eqn:E.
  - apply Nat2Z.inj. rewrite Z2Nat.id.
    + rewrite Nat2Z.inj_sub.
      * rewrite Nat2Z.inj_div. fold k. simpl Z.of_nat.
        Z.to_euclidean_division_equations; lia.
      * apply Nat.Div0.div_le_upper_bound. lia.
    + Z.to_euclidean_division_equations; lia.
  - apply Z.ltb_ge in E.
    assert (k = 0) by (Z.to_euclidean_division_equations; lia).
    assert (Z0 : (List.length l = 0)%nat) by (unfold k in *; lia).
    subst k. rewrite Z0. reflexivity.
Qed.

End Trend.

(** ** Strings *)

Section Strings.
Import PyStr.

Lemma append_cancel_l (p a b : string) : p ++ a = p ++ b -> a = b.
Proof.
  induction p as [| c p IH]; simpl; intros H.
  - exact H.
  - injection H as H. exact (IH H).
Qed.

Lemma append_assoc (a b c : string) : (a ++ b) ++ c = a ++ b ++ c.
Proof.
  induction a as [| x a IH]; simpl.
  - reflexivity.
  - rewrite IH. reflexivity.
Qed.

Lemma startswith_app (p a b : string) :
  startswith p a = true -> startswith p (a ++ b) = true.
Proof.
  revert a. induction p as [| c p IH]; intros a H.
  - reflexivity.
  - destruct a as [| x a]; simpl in *.
    + discriminate H.
    + apply andb_true_iff in H. destruct H as [H1 H2].
      rewrite H1. simpl. exact (IH a H2).
Qed.

Lemma contains_app_l (p a b : string) :
  contains p a = true -> contains p (a ++ b) = true.
Proof.
  induction a as [| x a IH]; intros H.
  - simpl in H. rewrite orb_false_r in H.
    destruct p; [| discriminate H].
    destruct b; reflexivity.
  - simpl in H. apply orb_true_iff in H.
    change ((String x a) ++ b) with (String x (a ++ b)).
    cbn [contains]. apply orb_true_iff.
    destruct H as [H | H].
    + left. exact (startswith_app p (String x a) b H).
    + right. exact (IH H).
Qed.

Lemma contains_app_r (p a b : string) :
  contains p b = true -> contains p (a ++ b) = true.
Proof.
  intros H. induction a as [| x a IH].
  - exact H.
  - change ((String x a) ++ b) with (String x (a ++ b)).
    cbn [contains]. rewrite IH. apply orb_true_r.
Qed.

(** A text that one line holds is in the joined lines. *)
Lemma contains_join (p sep : string) (l : list string) (x : string) :
  In x l -> contains p x = true -> contains p (join sep l) = true.
Proof.
  intros Hin Hx. induction l as [| y l IH].
  - destruct Hin.
  - destruct l as [| z l].
    + destruct Hin as [-> | []]. exact Hx.
    + change (join sep (y :: z :: l)) with (y ++ sep ++ join sep (z :: l)).
      destruct Hin as [-> | Hin].
      * apply contains_app_l. exact Hx.
      * apply contains_app_r, contains_app_r. exact (IH Hin).
Qed.

End Strings.

(** ** The report *)

Section Rendering.
Import Report Shows.

Lemma Ok_inj {A : Type} (a b : A) : Ok a = Ok b -> a = b.
Proof. intros H. injection H as H. exact H. Qed.

Lemma verdict_inj (a b : bool) : verdict a = verdict b -> a = b.
Proof. destruct a, b; simpl; intros H; try reflexivity; discriminate H. Qed.

Lemma verdict_prefix_inj (a b : bool) (s t : string) :
  verdict a ++ s = verdict b ++ t -> a = b.
Proof. destruct a, b; simpl; intros H; try reflexivity; discriminate H. Qed.

(** The decimal digits of an int hold no blank. *)
Lemma of_uint_no_blank (d : Decimal.uint) (s t : string) :
  NilEmpty.string_of_uint d <> (s ++ String " " t).
Proof.
  revert s. induction d; intros s H; destruct s as [| c s]; simpl in H;
    try discriminate H; injection H as _ H; exact (IHd s H).
Qed.

Lemma of_int_no_blank (k : Z) (s t : string) :
  PyStr.of_int k <> (s ++ String " " t).
Proof.
  unfold PyStr.of_int, NilZero.string_of_int, NilZero.string_of_uint.
  intros H.
  destruct (Z.to_int k) as [d | d].
  - destruct d; try exact (of_uint_no_blank _ s t H).
    destruct s as [| c [| c' s]]; discriminate H.
  - destruct s as [| c s]; [discriminate H |].
    simpl in H. injection H as _ H.
    destruct d; try exact (of_uint_no_blank _ s t H).
    destruct s as [| c' [| c'' s]]; discriminate H.
Qed.

(** Two texts without a blank that are followed by a blank are equal when
    the whole is. *)
Lemma split_at_blank (a b s t : string) :
  (forall u v, a <> (u ++ String " " v)) ->
  (forall u v, b <> (u ++ String " " v)) ->
  a ++ String " " s = b ++ String " " t -> a = b.
Proof.
  revert b. induction a as [| x a IH]; intros b Ha Hb H.
  - destruct b as [| y b]; [reflexivity |].
    simpl in H. injection H as H1 H2. subst y.
    exfalso. exact (Hb "" b eq_refl).
  - destruct b as [| y b].
    + simpl in H. injection H as H1 H2. subst x.
      exfalso. exact (Ha "" a eq_refl).
    + simpl in H. injection H as H1 H2. subst y. f_equal.
      apply IH; [| | exact H2].
      * intros u v E. apply (Ha (String x u) v). simpl. rewrite E. reflexivity.
      * intros u v E. apply (Hb (String x u) v). simpl. rewrite E. reflexivity.
Qed.

Lemma of_int_inj (a b : Z) : PyStr.of_int a = PyStr.of_int b -> a = b.
Proof.
  unfold PyStr.of_int. intros H.
  apply DecimalZ.to_int_inj.
  assert (N : forall z, Z.to_int z <> Decimal.Pos Decimal.Nil /\
                        Z.to_int z <> Decimal.Neg Decimal.Nil).
  { intros z. destruct z as [| p | p]; simpl; split; try discriminate;
      intros E; injection E as E;
      exact (DecimalPos.Unsigned.to_uint_nonnil p E). }
  assert (E : Some (Z.to_int a) = Some (Z.to_int b)).
  { rewrite <- (NilZero.isi (Z.to_int a)) by apply N.
    rewrite <- (NilZero.isi (Z.to_int b)) by apply N.
    rewrite H. reflexivity. }
  injection E as E. exact E.
Qed.

(** What two equal validation sections have in common, line by line. *)
Lemma validation_section_lines (a b : list LatencySample) :
  validation_section a = validation_section b ->
  verdict (peak_under_threshold a) = verdict (peak_under_threshold b) /\
  PyStr.of_int (failing_windows a) = PyStr.of_int (failing_windows b) /\
  sufficient_volume a = sufficient_volume b /\
  verdict (validation_passed a) = verdict (validation_passed b).
Proof.
  unfold validation_section, peak_under_threshold, sufficient_volume.
  intros H. injection H as H1 H2 H3 H4.
  repeat match goal with |- _ /\ _ => split end.
  - exact H1.
  - refine (split_at_blank _ _ _ _ _ _ H2); intros u v; apply of_int_no_blank.
  - exact (verdict_prefix_inj _ _ _ _ H3).
  - exact H4.
Qed.

Lemma shows_peak : shows peak_under_threshold.
Proof.
  intros a b _ _ H. apply validation_section_lines in H.
  apply verdict_inj, H.
Qed.

Lemma shows_failing_windows : determines failing_windows.
Proof.
  intros a b _ _ H. apply validation_section_lines in H.
  apply of_int_inj, H.
Qed.

Lemma shows_volume : shows sufficient_volume.
Proof.
  intros a b _ _ H. apply validation_section_lines in H. apply H.
Qed.

Lemma shows_verdict : shows validation_passed.
Proof.
  intros a b _ _ H. apply validation_section_lines in H.
  apply verdict_inj, H.
Qed.

(** C7 as stated fails for the average rule: [both_high] and [one_high]
    render the same validation section, yet the average P95 is 120 in the
    first and 85 in the second. *)
Lemma average_rule_not_shown : ~ shows average_under_threshold.
Proof.
  intros H.
  assert (E : average_under_threshold Inputs.both_high
              = average_under_threshold Inputs.one_high).
  { apply H; [discriminate | discriminate | vm_compute; reflexivity]. }
  vm_compute in E. discriminate E.
Qed.

(** Where the validation section stands among the lines of a report. *)
Lemma report_lines_section (samples : list LatencySample) (name : string)
  (rate : float) (detailed : bool) :
  exists before after,
    report_lines samples name rate detailed
    = (before ++ validation_section samples ++ after)%list.
Proof.
  exists (session_section samples name rate
            ++ statistics "Latency Statistics (P95):" (p95_values samples)
            ++ statistics "Latency Statistics (P50):" (p50_values samples)
            ++ statistics "Latency Statistics (P99):" (p99_values samples))%list.
  exists (warnings_section samples
            ++ (if detailed && (0 <? Z.of_nat (List.length samples))
                then detail_section samples else [])
            ++ [PyStr.rep "=" 60])%list.
  unfold report_lines. cbn [List.concat].
  rewrite app_nil_r, <- !app_assoc. reflexivity.
Qed.

(** A rendered report is the lines of [report_lines], joined. *)
Lemma generate_report_lines (samples : list LatencySample) (name : string)
  (detailed : bool) (report : string) :
  samples <> [] ->
  generate_report samples name detailed = Ok report ->
  exists rate,
    sample_rate samples = Ok rate /\
    report = PyStr.join PyStr.nl (report_lines samples name rate detailed).
Proof.
  intros N H. unfold generate_report in H.
  destruct samples as [| s rest]; [contradiction N; reflexivity |].
  destruct (sample_rate (s :: rest)) as [rate | e]; unfold bind in H;
    [| discriminate H].
  apply Ok_inj in H. subst report.
  exists rate. split; reflexivity.
Qed.

(** C7, amended: a rendered report holds the validation section; its
    lines give the verdict of the peak rule, the number of failing windows
    over the number of entries, the verdict of the volume rule and the
    overall verdict, and each of these can be read off the section.  No
    line is about the average rule. *)
Theorem validation_section_in_report (samples : list LatencySample)
  (name : string) (detailed : bool) (report : string) :
  samples <> [] ->
  generate_report samples name detailed = Ok report ->
  (exists before after,
     report = PyStr.join PyStr.nl
                (before ++ validation_section samples ++ after)%list) /\
  validation_section samples
  = ["Validation Results:";
     "  P95 < 100ms Requirement: " ++ verdict (peak_under_threshold samples);
     "  Failing Windows: " ++ PyStr.of_int (failing_windows samples) ++ " / "
       ++ PyStr.of_int (Z.of_nat (List.length samples));
     "  Minimum Sample Count: " ++ verdict (sufficient_volume samples)
       ++ " (" ++ PyStr.commas (total_samples samples) ++ " / 3,600)";
     "";
     "Overall Validation: " ++ verdict (validation_passed samples);
     ""] /\
  shows peak_under_threshold /\
  determines failing_windows /\
  shows sufficient_volume /\
  shows validation_passed.
Proof.
  intros N H.
  split; [| split; [reflexivity |]].
  - destruct (generate_report_lines samples name detailed report N H)
      as [rate [_ ->]].
    destruct (report_lines_section samples name rate detailed)
      as [before [after E]].
    exists before, after. rewrite E. reflexivity.
  - exact (conj shows_peak
             (conj shows_failing_windows (conj shows_volume shows_verdict))).
Qed.

Lemma validation_section_in_report_witness :
  Inputs.healthy3 <> [] /\
  (exists report, generate_report Inputs.healthy3 "latency.txt" false = Ok report) /\
  shows peak_under_threshold.
Proof.
  assert (N : Inputs.healthy3 <> []) by discriminate.
  destruct (generate_report Inputs.healthy3 "latency.txt" false) as [r | e] eqn:E.
  - exact (conj N (conj (ex_intro _ r eq_refl)
             (proj1 (proj2 (proj2
                (validation_section_in_report Inputs.healthy3 "latency.txt"
                   false r N E)))))).
  - vm_compute in E. discriminate E.
Defined.

End Rendering.

(** ** The exit status *)

Section ExitStatus.
Import Report.

(** A passing peak rule puts the text [main] looks for in the report,
    whatever the other rules say. *)
Lemma peak_pass_in_report (samples : list LatencySample) (name : string)
  (detailed : bool) (report : string) :
  samples <> [] ->
  generate_report samples name detailed = Ok report ->
  lt (max_p95 samples) (Parse.literal "100.0") = true ->
  PyStr.contains pass_text report = true.
Proof.
  intros N H P.
  destruct (generate_report_lines samples name detailed report N H)
    as [rate [_ ->]].
  destruct (report_lines_section samples name rate detailed)
    as [before [after ->]].
  apply contains_join
    with (x := "  P95 < 100ms Requirement: " ++ verdict true).
  - apply in_or_app. right. apply in_or_app. left.
    unfold validation_section. rewrite P. right. left. reflexivity.
  - vm_compute. reflexivity.
Qed.

(** The status [main] exits with once samples were found and the report
    was rendered: it tests the report for the text of a pass. *)
Lemma exit_code_of_report (args : Analyzer.Args) (w : IO.World)
  (content : string) (samples : list LatencySample) (report : string) :
  IO.files w (PyPath.str (PyPath.of_str (Analyzer.arg_log_file args)))
  = Some content ->
  Extract.extract content = Ok samples ->
  samples <> [] ->
  generate_report samples
    (PyPath.name (PyPath.of_str (Analyzer.arg_log_file args)))
    (Analyzer.arg_detailed args) = Ok report ->
  Analyzer.exit_code args w
  = if PyStr.contains pass_text report then 0 else 1.
Proof.
  intros F X N R.
  unfold Extract.extract in X.
  unfold Analyzer.exit_code, Analyzer.main, Analyzer.parse_logs,
    Analyzer.init, IO.bindM, IO.exists_, IO.read, IO.lift, IO.print, IO.ret.
  cbn [Analyzer.log_file Analyzer.samples IO.files fst snd].
  rewrite F. cbn [negb]. cbv beta iota. rewrite F. cbv beta iota. rewrite X.
  destruct samples as [| s rest]; [contradiction N; reflexivity |].
  cbn [List.length Nat.eqb negb]. cbv beta iota.
  unfold Analyzer.generate_report. cbn [Analyzer.log_file Analyzer.samples].
  rewrite R. cbv beta iota.
  destruct (Analyzer.arg_csv args) as [[| c p] |]; try reflexivity.
  unfold Analyzer.export_csv, IO.bindM, IO.write, IO.print, IO.eprint, IO.ret.
  cbn [Analyzer.log_file Analyzer.samples IO.refused IO.files IO.stdout
       IO.stderr].
  destruct (IO.refused w (String c p)); reflexivity.
Qed.

End ExitStatus.

(** ** The extractor *)

Section Extraction.
Import Regex Extract.

(** Whatever a pattern matches, a successful run ends in its
    continuation. *)
Lemma greedily_cont {A : Type} (p : ascii -> bool) (k : string -> option A)
  (s : string) (a : A) :
  greedily p k s = Some a -> exists s', k s' = Some a.
Proof.
  induction s as [| c s IH]; simpl; intros H.
  - exists "". exact H.
  - destruct (p c).
    + destruct (greedily p k s) as [b |] eqn:E.
      * injection H as <-. exact (IH eq_refl).
      * exists (String c s). exact H.
    + exists (String c s). exact H.
Qed.

Lemma lazily_cont {A : Type} (p : ascii -> bool) (k : string -> option A)
  (s : string) (a : A) :
  lazily p k s = Some a -> exists s', k s' = Some a.
Proof.
  induction s as [| c s IH]; simpl; intros H.
  - destruct (k "") eqn:E; [| discriminate H].
    exists "". rewrite E. exact H.
  - destruct (k (String c s)) eqn:E.
    + exists (String c s). rewrite E. exact H.
    + destruct (p c); [exact (IH H) | discriminate H].
Qed.

Lemma run_cont {A : Type} (r : regex) :
  forall (s : string) (g : groups) (k : string -> groups -> option A) (a : A),
    run r s g k = Some a -> exists s' g', k s' g' = Some a.
Proof.
  induction r as [| p | r1 IH1 r2 IH2 | r1 IH1 r2 IH2 | p | p | i r IH];
    intros s g k a H; cbn [run] in H.
  - exists s, g. exact H.
  - destruct s as [| c s]; [discriminate H |].
    destruct (p c); [| discriminate H].
    exists s, g. exact H.
  - apply IH1 in H. destruct H as [s1 [g1 H]].
    exact (IH2 _ _ _ _ H).
  - destruct (run r1 s g k) as [b |] eqn:E.
    + injection H as <-. exact (IH1 _ _ _ _ E).
    + exact (IH2 _ _ _ _ H).
  - apply greedily_cont in H. destruct H as [s' H]. exists s', g. exact H.
  - apply lazily_cont in H. destruct H as [s' H]. exists s', g. exact H.
  - apply IH in H. destruct H as [s1 [g1 H]].
    exists s1, (set_group i (consumed s s1) g1). exact H.
Qed.

Lemma run_seq {A : Type} (r1 r2 : regex) (s : string) (g : groups)
  (k : string -> groups -> option A) :
  run (Seq r1 r2) s g k = run r1 s g (fun s' g' => run r2 s' g' k).
Proof. reflexivity. Qed.

(** A literal matches the text it spells, and nothing else. *)
Lemma run_lit {A : Type} (t : string) :
  forall (s : string) (g : groups) (k : string -> groups -> option A) (a : A),
    run (lit t) s g k = Some a -> exists s', s = t ++ s' /\ k s' g = Some a.
Proof.
  induction t as [| c t IH]; intros s g k a H; cbn [lit run] in H.
  - exists s. split; [reflexivity | exact H].
  - destruct s as [| c' s]; [discriminate H |].
    unfold only in H. destruct (Ascii.eqb_spec c c') as [<- | _];
      [| discriminate H].
    apply IH in H. destruct H as [s' [-> H]].
    exists s'. split; [reflexivity | exact H].
Qed.

Lemma length_append (a b : string) :
  String.length (a ++ b) = (String.length a + String.length b)%nat.
Proof. induction a as [| c a IH]; simpl; [reflexivity | rewrite IH; reflexivity]. Qed.

Lemma substring_prefix (a b : string) :
  substring 0 (String.length a) (a ++ b) = a.
Proof.
  induction a as [| c a IH]; simpl.
  - destruct b; reflexivity.
  - rewrite IH. reflexivity.
Qed.

Lemma consumed_append (t s : string) : consumed (t ++ s) s = t.
Proof.
  unfold consumed. rewrite length_append.
  replace (String.length t + String.length s - String.length s)%nat
    with (String.length t) by lia.
  apply substring_prefix.
Qed.

(** The seventh group of a match of the pattern is a status token. *)
Lemma match_status (s rest : string) (g : groups) :
  match_here pattern s = Some (g, rest) -> status_token (g 7%nat).
Proof.
  unfold match_here, pattern. cbn [seq]. intros H.
  do 20 (rewrite run_seq in H; apply run_cont in H; destruct H as [? [? H]]).
  rewrite run_seq in H. cbn [run] in H.
  assert (T : forall t s0 g0,
             Some (set_group 7 (consumed (t ++ s0) s0) g0, s0) = Some (g, rest) ->
             g 7%nat = t).
  { intros t s0 g0 E. apply (f_equal (option_map fst)) in E.
    cbn [option_map fst] in E. injection E as <-.
    rewrite consumed_append. reflexivity. }
  destruct (run (lit pass_glyph) _ _ _) as [b |] eqn:E1 in H.
  - injection H as ->. apply run_lit in E1. destruct E1 as [s' [-> E]].
    left. exact (T _ _ _ E).
  - destruct (run (lit warning_glyph) _ _ _) as [b |] eqn:E2 in H.
    + injection H as ->. apply run_lit in E2. destruct E2 as [s' [-> E]].
      right. left. exact (T _ _ _ E).
    + apply run_lit in H. destruct H as [s' [-> E]].
      right. right. exact (T _ _ _ E).
Qed.

(** Every item of [findall] is a match at some place of the text. *)
Lemma scan_match (r : regex) (s : string) :
  forall (skip : nat) (g : groups),
    In g (scan r skip s) -> exists s' rest, match_here r s' = Some (g, rest).
Proof.
  induction s as [| c s IH]; intros skip g H.
  - destruct skip as [| k]; cbn [scan] in H; [| destruct H].
    destruct (match_here r "") as [[g0 rest] |] eqn:E; [| destruct H].
    destruct H as [<- | []]. exists "", rest. exact E.
  - destruct skip as [| k]; cbn [scan] in H; [| exact (IH _ _ H)].
    destruct (match_here r (String c s)) as [[g0 rest] |] eqn:E.
    + destruct H as [<- | H]; [| exact (IH _ _ H)].
      exists (String c s), rest. exact E.
    + exact (IH _ _ H).
Qed.

(** The loop of [parse_logs] yields one sample for each match, in the
    order of the matches, after the samples it started from. *)
Lemma extend_samples (matches : list groups) :
  forall (before l : list LatencySample),
    extend before matches = Ok l ->
    exists found,
      l = (before ++ found)%list /\
      Forall2 (fun g s => sample_of_match g = Ok s) matches found.
Proof.
  induction matches as [| g rest IH]; intros before l H; cbn [extend] in H.
  - apply Ok_inj in H. subst l. exists []. split.
    + rewrite app_nil_r. reflexivity.
    + constructor.
  - destruct (sample_of_match g) as [s | e] eqn:E; unfold bind in H;
      [| discriminate H].
    apply IH in H. destruct H as [found [-> F]].
    exists (s :: found). split.
    + rewrite <- app_assoc. reflexivity.
    + constructor; assumption.
Qed.

(** The flag of a sample is the test of the status group against the pass
    glyph. *)
Lemma sample_of_match_flag (g : groups) (s : LatencySample) :
  sample_of_match g = Ok s ->
  meets_requirement s = String.eqb (g 7%nat) pass_glyph.
Proof.
  unfold sample_of_match, bind. intros H.
  destruct (Parse.int_of_str (g 2%nat)); [| discriminate H].
  destruct (Parse.int_of_str (g 3%nat)); [| discriminate H].
  destruct (Parse.float_of_str (g 4%nat)); [| discriminate H].
  destruct (Parse.float_of_str (g 5%nat)); [| discriminate H].
  destruct (Parse.float_of_str (g 6%nat)); [| discriminate H].
  apply Ok_inj in H. subst s. reflexivity.
Qed.

(** C8: the samples extracted from a log stand one for one, in order, for
    the matches of the pattern; the status token of each match is the pass
    glyph, the warning glyph or WARNING, and the sample meets the
    requirement exactly when the token is the pass glyph, so not when it
    is one of the other two. *)
Theorem meets_requirement_iff_pass_glyph (content : string)
  (samples : list LatencySample) :
  extract content = Ok samples ->
  Forall2
    (fun g s =>
       status_token (g 7%nat) /\
       (meets_requirement s = true <-> g 7%nat = "✓") /\
       (g 7%nat = "⚠️" \/ g 7%nat = "WARNING" -> meets_requirement s = false))
    (findall pattern content) samples.
Proof.
  unfold extract. intros H.
  apply extend_samples in H. destruct H as [found [-> F]]. simpl.
  assert (M : Forall (fun g => status_token (g 7%nat)) (findall pattern content)).
  { apply Forall_forall. intros g Hg.
    apply scan_match in Hg. destruct Hg as [s' [rest Hg]].
    exact (match_status _ _ _ Hg). }
  induction F as [| g s gs ss Hs F IH]; constructor.
  - apply sample_of_match_flag in Hs.
    split; [exact (Forall_inv M) |]. rewrite Hs. split.
    + apply String.eqb_eq.
    + intros [E | E]; rewrite E; reflexivity.
  - apply IH. exact (Forall_inv_tail M).
Qed.

Lemma meets_requirement_iff_pass_glyph_witness :
  extract Inputs.short_log = Ok Inputs.short_samples /\
  Forall2
    (fun g s =>
       status_token (g 7%nat) /\
       (meets_requirement s = true <-> g 7%nat = "✓") /\
       (g 7%nat = "⚠️" \/ g 7%nat = "WARNING" -> meets_requirement s = false))
    (findall pattern Inputs.short_log) Inputs.short_samples.
Proof.
  assert (E : extract Inputs.short_log = Ok Inputs.short_samples)
    by (vm_compute; reflexivity).
  exact (conj E
           (meets_requirement_iff_pass_glyph Inputs.short_log
              Inputs.short_samples E)).
Defined.

(** Lines of other subsystems between the lines of a block do not stop
    the match. *)
Example interleaved_lines :
  extract
    ("01-13 14:30:00.123 I/flutter [LatencyService] Latency Statistics:"
       ++ PyStr.nl ++ "01-13 14:30:00.200 D/Bluetooth: scan started" ++ PyStr.nl
       ++ "  Samples: 456 (Total: 1234)" ++ PyStr.nl
       ++ "  P50: 45.23 ms" ++ PyStr.nl
       ++ "01-13 14:30:00.250 W/Battery: low" ++ PyStr.nl
       ++ "  P95: 78.91 ms" ++ PyStr.nl
       ++ "  P99: 92.45 ms" ++ PyStr.nl
       ++ "  ✓ P95 latency meets <100ms requirement" ++ PyStr.nl)
  = Ok Inputs.short_samples.
Proof. vm_compute. reflexivity. Qed.

(** The three tokens on a match with the fields of [short_log]. *)
Example status_tokens :
  option_map meets_requirement
    (match sample_of_match (Inputs.match_of "✓") with Ok s => Some s | _ => None end)
    = Some true /\
  option_map meets_requirement
    (match sample_of_match (Inputs.match_of "⚠️") with Ok s => Some s | _ => None end)
    = Some false /\
  option_map meets_requirement
    (match sample_of_match (Inputs.match_of "WARNING") with Ok s => Some s | _ => None end)
    = Some false.
Proof. vm_compute. auto. Qed.

(** C4, at a log whose second block writes its P50 with two dots: the
    block matches the whole pattern, [float] raises on the text of its
    fourth group, and the exception leaves [parse_logs] and ends the run
    with status 1, although the first block alone is extracted. *)
Theorem extraction_raises_on_two_dots :
  map (fun g => map g (List.seq 1 7))
    (findall pattern (Inputs.block "1.2.3" "✓"))
    = [["01-13 14:30:00.123"; "456"; "1234"; "1.2.3"; "78.91"; "92.45"; "✓"]] /\
  Parse.float_of_str "1.2.3" = Raise ValueError /\
  extract (Inputs.block "45.23" "✓") = Ok Inputs.short_samples /\
  extract Inputs.two_dots_log = Raise ValueError /\
  fst (Analyzer.main Inputs.args (Inputs.world Inputs.two_dots_log ""))
    = Raise ValueError /\
  Analyzer.exit_code Inputs.args (Inputs.world Inputs.two_dots_log "") = 1.
Proof.
  repeat match goal with |- _ /\ _ => split end; vm_compute; reflexivity.
Qed.

End Extraction.

(** ** The CSV export *)

Section CsvExport.
Import Analyzer.

























(** The file written for [short_log], and the file read back. *)
Example export_short_log :
  IO.files
    (snd (export_csv Inputs.parsed "out.csv" Inputs.short_world))
    "out.csv"
  = Some ("timestamp,sample_count,total_samples,p50_ms,p95_ms,p99_ms,meets_requirement"
            ++ PyStr.nl
            ++ "01-13 14:30:00.123,456,1234,45.23,78.91,92.45,True" ++ PyStr.nl)
  /\
  Csv.table (csv_text Inputs.short_samples)
  = [Csv.columns;
     ["01-13 14:30:00.123"; "456"; "1234"; "45.23"; "78.91"; "92.45"; "True"];
     [""]].
Proof. split; vm_compute; reflexivity. Qed.

End CsvExport.

(** ** The run *)

Section Run.
Import Report.

(** Samples were found, the report was rendered and its peak rule passes:
    the run exits with 0, whatever the overall result is. *)
Lemma exit_zero_when_peak_passes (args : Analyzer.Args) (w : IO.World)
  (content : string) (samples : list LatencySample) (report : string) :
  IO.files w (PyPath.str (PyPath.of_str (Analyzer.arg_log_file args)))
  = Some content ->
  Extract.extract content = Ok samples ->
  samples <> [] ->
  generate_report samples
    (PyPath.name (PyPath.of_str (Analyzer.arg_log_file args)))
    (Analyzer.arg_detailed args) = Ok report ->
  lt (max_p95 samples) (Parse.literal "100.0") = true ->
  Analyzer.exit_code args w = 0.
Proof.
  intros F X N R P.
  rewrite (exit_code_of_report args w content samples report F X N R).
  rewrite (peak_pass_in_report samples _ _ report N R P).
  reflexivity.
Qed.

(** C1, at a log of one healthy block that is short of 3600 samples: the
    overall result is FAIL, the report says so, and the run exits with 0,
    because the line of the peak rule holds the text of a pass. *)
Theorem exit_zero_on_failed_validation :
  Extract.extract Inputs.short_log = Ok Inputs.short_samples /\
  validation_passed Inputs.short_samples = false /\
  (exists report,
     generate_report Inputs.short_samples "latency.txt" false = Ok report /\
     PyStr.contains ("Overall Validation: " ++ fail_text) report = true /\
     PyStr.contains ("Overall Validation: " ++ pass_text) report = false /\
     PyStr.contains ("  P95 < 100ms Requirement: " ++ pass_text) report = true) /\
  fst (Analyzer.main Inputs.args Inputs.short_world) = Ok 0 /\
  Analyzer.exit_code Inputs.args Inputs.short_world = 0.
Proof.
  split; [vm_compute; reflexivity |].
  split; [vm_compute; reflexivity |].
  split.
  - destruct (generate_report Inputs.short_samples "latency.txt" false)
      as [report | e] eqn:E.
    + exists report. split; [reflexivity |].
      vm_compute in E. apply Ok_inj in E. subst report.
      repeat match goal with |- _ /\ _ => split end; vm_compute; reflexivity.
    + vm_compute in E. discriminate E.
  - split; vm_compute; reflexivity.
Qed.

End Run.

(** * Further properties *)

(** ** The order of floats *)

Section Order.
Import FloatOrder.

Lemma lex_spec (a b : Z * Z * Z) : lex a b = Lt <-> lex_lt a b.
Proof.
  destruct a as [[a1 a2] a3], b as [[b1 b2] b3]. unfold lex, lex_lt.
  destruct (Z.compare_spec a1 b1); destruct (Z.compare_spec a2 b2);
    destruct (Z.compare_spec a3 b3); split; intros L;
    try discriminate L; try reflexivity; try lia.
Qed.

(** [SFcompare] is the comparison of the ranks. *)
Lemma compare_rank (x y : float) :
  SFcompare x y
  = match rank x, rank y with
    | Some a, Some b => Some (lex a b)
    | _, _ => None
    end.
Proof.
  destruct x as [sx | sx | | sx mx ex], y as [sy | sy | | sy my ey];
    try destruct sx; try destruct sy; try reflexivity;
    cbn [SFcompare rank lex].
  change (1 ?= 1) with Eq. cbv iota.
  rewrite Z.compare_opp, (Z.compare_antisym ex ey).
  destruct (ex ?= ey); reflexivity.
Qed.

Lemma lt_rank (x y : float) :
  lt x y = true <->
  exists a b, rank x = Some a /\ rank y = Some b /\ lex_lt a b.
Proof.
  unfold lt, SFltb. rewrite compare_rank.
  destruct (rank x) as [a |]; [destruct (rank y) as [b |] |].
  - split; intros H.
    + exists a, b. repeat split. apply lex_spec.
      destruct (lex a b); try discriminate H. reflexivity.
    + destruct H as [a' [b' [H1 [H2 H]]]].
      injection H1 as <-. injection H2 as <-.
      apply lex_spec in H. rewrite H. reflexivity.
  - split; [intros H; discriminate H |].
    intros [a' [b' [_ [H2 _]]]]. discriminate H2.
  - split; [intros H; discriminate H |].
    intros [a' [b' [H1 _]]]. discriminate H1.
Qed.

Lemma rank_not_nan (x : float) : is_nan x = false -> exists a, rank x = Some a.
Proof.
  destruct x as [s | s | | s m e]; intros H; try discriminate H;
    try destruct s; eexists; reflexivity.
Qed.

Ltac triples :=
  repeat match goal with
         | a : (Z * Z * Z)%type |- _ => destruct a as [[? ?] ?]
         end;
  unfold lex_lt in *.

Lemma lt_asym (x y : float) : lt x y = true -> lt y x = false.
Proof.
  intros H. destruct (lt y x) eqn:E; [| reflexivity].
  apply lt_rank in H, E.
  destruct H as [a [b [Ha [Hb H]]]]. destruct E as [b' [a' [Hb' [Ha' E]]]].
  rewrite Ha in Ha'. rewrite Hb in Hb'.
  injection Ha' as <-. injection Hb' as <-.
  triples. lia.
Qed.

Lemma lt_trans (x y z : float) :
  lt x y = true -> lt y z = true -> lt x z = true.
Proof.
  intros H1 H2. apply lt_rank in H1, H2. apply lt_rank.
  destruct H1 as [a [b [Ha [Hb H1]]]]. destruct H2 as [b' [c [Hb' [Hc H2]]]].
  rewrite Hb in Hb'. injection Hb' as <-.
  exists a, c. repeat split; try assumption.
  triples. lia.
Qed.

(** What is not above [x] is below whatever [x] is below. *)
Lemma not_gt_lt (x y t : float) :
  is_nan y = false -> lt x y = false -> lt x t = true -> lt y t = true.
Proof.
  intros N H1 H2.
  destruct (rank_not_nan y N) as [b Hb].
  apply lt_rank in H2. destruct H2 as [a [c [Ha [Hc H2]]]].
  apply lt_rank. exists b, c. repeat split; try assumption.
  assert (H : ~ lex_lt a b).
  { intros L. assert (E : lt x y = true)
      by (apply lt_rank; exists a, b; repeat split; assumption).
    rewrite E in H1. discriminate H1. }
  triples. lia.
Qed.

End Order.

(** ** The aggregates *)

Section Aggregates.
Import Builtins Report FloatOrder Running.

Lemma lt_irrefl (x : float) : lt x x = false.
Proof.
  destruct (lt x x) eqn:E; [| reflexivity].
  pose proof (lt_asym x x E) as H. rewrite E in H. discriminate H.
Qed.

Lemma max_running (x : float) (rest : list float) :
  max (x :: rest) = running_max x rest.
Proof. reflexivity. Qed.

Lemma running_max_cons (x y : float) (rest : list float) :
  running_max x (y :: rest) = running_max (if lt x y then y else x) rest.
Proof. reflexivity. Qed.

Lemma running_max_in (rest : list float) :
  forall x, In (running_max x rest) (x :: rest).
Proof.
  induction rest as [| y rest IH]; intros x.
  - left. reflexivity.
  - rewrite running_max_cons.
    destruct (IH (if lt x y then y else x)) as [H | H].
    + rewrite <- H. destruct (lt x y); [right; left | left]; reflexivity.
    + right. right. exact H.
Qed.

(** The running maximum only grows. *)
Lemma running_max_grows (rest : list float) :
  forall x z, lt x z = false -> lt (running_max x rest) z = false.
Proof.
  induction rest as [| y rest IH]; intros x z H.
  - exact H.
  - rewrite running_max_cons. apply IH.
    destruct (lt x y) eqn:E; [| exact H].
    destruct (lt y z) eqn:F; [| reflexivity].
    rewrite (lt_trans x y z E F) in H. discriminate H.
Qed.

Lemma running_max_upper (rest : list float) :
  forall x z, In z (x :: rest) -> lt (running_max x rest) z = false.
Proof.
  induction rest as [| y rest IH]; intros x z H.
  - destruct H as [<- | []]. apply lt_irrefl.
  - rewrite running_max_cons.
    destruct H as [<- | [<- | H]].
    + apply running_max_grows.
      destruct (lt x y) eqn:E; [exact (lt_asym x y E) | apply lt_irrefl].
    + apply running_max_grows.
      destruct (lt x y) eqn:E; [apply lt_irrefl | exact E].
    + apply IH. right. exact H.
Qed.

Lemma running_max_lt (t : float) (rest : list float) :
  forall x,
    Forall (fun z => is_nan z = false) rest ->
    (lt (running_max x rest) t = true <->
     lt x t = true /\ Forall (fun z => lt z t = true) rest).
Proof.
  induction rest as [| y rest IH]; intros x N.
  - split; [intros H; split; [exact H | constructor] | intros [H _]; exact H].
  - rewrite running_max_cons.
    inversion N as [| y' rest' Ny Nrest]; subst.
    rewrite (IH _ Nrest).
    destruct (lt x y) eqn:E; split.
    + intros [Hy F]. split; [exact (lt_trans x y t E Hy) |].
      constructor; assumption.
    + intros [_ F]. inversion F; subst. split; assumption.
    + intros [Hx F]. split; [exact Hx |].
      constructor; [exact (not_gt_lt x y t Ny E Hx) | exact F].
    + intros [Hx F]. inversion F; subst. split; assumption.
Qed.

(** Without a NaN among the P95 values, the peak rule is a rule on every
    sample. *)
Lemma max_p95_lt_iff (samples : list LatencySample) (t : float) :
  samples <> [] ->
  Forall (fun s => is_nan (p95_ms s) = false) samples ->
  (lt (max_p95 samples) t = true <->
   Forall (fun s => lt (p95_ms s) t = true) samples).
Proof.
  intros N F. destruct samples as [| s rest]; [contradiction N; reflexivity |].
  unfold max_p95, p95_values. cbn [map]. rewrite max_running.
  inversion F as [| s' rest' Fs Frest]; subst.
  rewrite running_max_lt.
  - rewrite Forall_map. split.
    + intros [H1 H2]. constructor; assumption.
    + intros H. inversion H; subst. split; assumption.
  - rewrite Forall_map. exact Frest.
Qed.

(** X1: the greatest P95 of a non-empty sequence is the P95 of one of its
    samples, and no sample's P95 is greater; when no P95 is a NaN, the
    peak rule holds exactly when the P95 of every sample is under
    100.0. *)
Theorem peak_rule_is_every_window (samples : list LatencySample) :
  samples <> [] ->
  In (max_p95 samples) (p95_values samples) /\
  Forall (fun s => gt (p95_ms s) (max_p95 samples) = false) samples /\
  (Forall (fun s => is_nan (p95_ms s) = false) samples ->
   (lt (max_p95 samples) (Parse.literal "100.0") = true <->
    Forall (fun s => lt (p95_ms s) (Parse.literal "100.0") = true) samples)).
Proof.
  intros N. split; [| split].
  - destruct samples as [| s rest]; [contradiction N; reflexivity |].
    unfold max_p95, p95_values. cbn [map]. rewrite max_running.
    apply running_max_in.
  - destruct samples as [| s rest]; [contradiction N; reflexivity |].
    unfold max_p95, p95_values. cbn [map]. rewrite max_running.
    apply Forall_forall. intros z Hz. unfold gt.
    apply running_max_upper. apply (in_map p95_ms) in Hz. exact Hz.
  - intros F. apply max_p95_lt_iff; assumption.
Qed.

Lemma peak_rule_is_every_window_witness :
  MoreInputs.mixed3 <> [] /\
  In (max_p95 MoreInputs.mixed3) (p95_values MoreInputs.mixed3).
Proof.
  assert (N : MoreInputs.mixed3 <> []) by discriminate.
  exact (conj N (proj1 (peak_rule_is_every_window MoreInputs.mixed3 N))).
Defined.

End Aggregates.

(** ** The rules and the warnings together *)

Section Consistency.
Import Report Kind MoreKinds.

Ltac warning_cases :=
  repeat match goal with
         | H : In _ (warnings _) |- _ =>
             unfold warnings in H; cbn [List.concat] in H; cbv iota in H
         | H : In _ (_ ++ _)%list |- _ =>
             apply in_app_or in H; destruct H as [H | H]
         | H : In _ (if ?c then _ else _) |- _ => destruct c eqn:?
         | H : In _ (_ :: _) |- _ => destruct H as [H | H]
         | H : In _ [] |- _ => destruct H
         end;
  subst.

(** X2: the number of failing windows lies between 0 and the number of
    samples, is 0 exactly when every sample meets the requirement, and a
    run that passes has no sample that fails it. *)
Theorem failing_windows_bounds (samples : list LatencySample) :
  0 <= failing_windows samples <= Z.of_nat (List.length samples) /\
  (failing_windows samples = 0 <->
   Forall (fun s => meets_requirement s = true) samples) /\
  (failing_windows samples = Z.of_nat (List.length samples) <->
   Forall (fun s => meets_requirement s = false) samples) /\
  (validation_passed samples = true ->
   Forall (fun s => meets_requirement s = true) samples).
Proof.
  assert (B : 0 <= failing_windows samples <= Z.of_nat (List.length samples)).
  { unfold failing_windows. split; [lia |].
    apply Nat2Z.inj_le. apply filter_length_le. }
  split; [exact B |]. split; [apply failing_windows_zero |]. split.
  - clear B. unfold failing_windows.
    induction samples as [| s rest IH]; cbn [filter List.length].
    + split; [constructor | reflexivity].
    + pose proof (filter_length_le (fun s => negb (meets_requirement s)) rest)
        as L.
      destruct (meets_requirement s) eqn:E; cbn [negb List.length]; split;
        intros H.
      * lia.
      * inversion H; congruence.
      * constructor; [exact E |]. apply IH; lia.
      * inversion H as [| s' rest' _ F]; subst.
        apply IH in F; lia.
  - intros V. apply failing_windows_zero.
    unfold validation_passed in V.
    rewrite !andb_true_iff in V. apply Z.eqb_eq. tauto.
Qed.

(** X3: the exceeded warning and the close-to-threshold warning never
    come together. *)
Theorem exceeded_excludes_close (samples : list LatencySample)
  (w1 w2 : string) :
  In w1 (warnings samples) -> In w2 (warnings samples) ->
  is_exceeded w1 && is_close w2 = false.
Proof.
  intros H1 H2. warning_cases; try reflexivity; congruence.
Qed.

Lemma exceeded_excludes_close_witness :
  In (exceeded_warning MoreInputs.mixed3) (warnings MoreInputs.mixed3) /\
  In (average_warning MoreInputs.mixed3) (warnings MoreInputs.mixed3) /\
  is_exceeded (exceeded_warning MoreInputs.mixed3)
    && is_close (average_warning MoreInputs.mixed3) = false.
Proof.
  assert (H1 : In (exceeded_warning MoreInputs.mixed3)
                 (warnings MoreInputs.mixed3))
    by (vm_compute; left; reflexivity).
  assert (H2 : In (average_warning MoreInputs.mixed3)
                 (warnings MoreInputs.mixed3))
    by (vm_compute; right; left; reflexivity).
  exact (conj H1 (conj H2
           (exceeded_excludes_close MoreInputs.mixed3 _ _ H1 H2))).
Defined.

(** X4: the insufficient-sample warning is among the warnings exactly
    when the volume rule fails, the exceeded warning exactly when the
    greatest P95 is above 100.0, which makes the run fail; so a run that
    passes carries neither. *)
Theorem warnings_follow_rules (samples : list LatencySample) :
  ((exists w, In w (warnings samples) /\ is_insufficient w = true) <->
   total_samples samples < 3600) /\
  ((exists w, In w (warnings samples) /\ is_exceeded w = true) <->
   gt (max_p95 samples) (Parse.literal "100.0") = true) /\
  ((exists w, In w (warnings samples) /\ is_exceeded w = true) ->
   validation_passed samples = false) /\
  (validation_passed samples = true ->
   forall w, In w (warnings samples) ->
             is_exceeded w = false /\ is_insufficient w = false).
Proof.
  assert (I : (exists w, In w (warnings samples) /\ is_insufficient w = true)
              <-> total_samples samples < 3600).
  { split.
    - intros [w [H E]]. warning_cases; try discriminate E.
      apply Z.ltb_lt. assumption.
    - intros H. apply Z.ltb_lt in H.
      exists (insufficient_warning samples). split; [| reflexivity].
      unfold warnings. rewrite H. apply in_concat.
      exists [insufficient_warning samples].
      split; [do 3 right |]; left; reflexivity. }
  assert (X : (exists w, In w (warnings samples) /\ is_exceeded w = true)
              <-> gt (max_p95 samples) (Parse.literal "100.0") = true).
  { split.
    - intros [w [H E]]. warning_cases; try discriminate E. reflexivity.
    - intros H.
      exists (exceeded_warning samples). split; [| reflexivity].
      unfold warnings. rewrite H. apply in_concat.
      exists [exceeded_warning samples]. split; left; reflexivity. }
  assert (F : gt (max_p95 samples) (Parse.literal "100.0") = true ->
              validation_passed samples = false).
  { intros H. unfold gt in H. apply lt_asym in H.
    unfold validation_passed. fold (lt (max_p95 samples) (Parse.literal "100.0")).
    rewrite H, ?andb_false_r. reflexivity. }
  split; [exact I |]. split; [exact X |]. split.
  - intros H. apply F, X, H.
  - intros V w Hw.
    split.
    + destruct (is_exceeded w) eqn:E; [| reflexivity].
      rewrite F in V; [discriminate V |]. apply X. exists w. split; assumption.
    + destruct (is_insufficient w) eqn:E; [| reflexivity].
      assert (T : total_samples samples < 3600)
        by (apply I; exists w; split; assumption).
      unfold validation_passed in V. rewrite !andb_true_iff in V.
      destruct V as [_ V]. apply Z.leb_le in V. lia.
Qed.

End Consistency.

(** ** The lines of the report and the windows of the trend check *)

Section Layout.
Import Builtins Report.

(** X5: for a non-empty sequence the detailed report is the plain one
    with the table put before the closing rule, and the table is six
    heading lines, then one row for each sample in order, then one empty
    line, which is its last. *)
Theorem detailed_adds_table (samples : list LatencySample) (name : string)
  (rate : float) :
  samples <> [] ->
  exists body,
    report_lines samples name rate false = (body ++ [PyStr.rep "=" 60])%list /\
    report_lines samples name rate true
    = (body ++ detail_section samples ++ [PyStr.rep "=" 60])%list /\
    List.length (detail_section samples) = (7 + List.length samples)%nat /\
    firstn (List.length samples) (skipn 6 (detail_section samples))
    = map detail_row samples /\
    (exists heading,
       List.length heading = 6%nat /\
       detail_section samples
       = (heading ++ map detail_row samples ++ [""])%list) /\
    last (detail_section samples) "DETAILED BREAKDOWN" = "".
Proof.
  intros N.
  exists (session_section samples name rate
            ++ statistics "Latency Statistics (P95):" (p95_values samples)
            ++ statistics "Latency Statistics (P50):" (p50_values samples)
            ++ statistics "Latency Statistics (P99):" (p99_values samples)
            ++ validation_section samples ++ warnings_section samples)%list.
  assert (P : (0 <? Z.of_nat (List.length samples)) = true).
  { destruct samples; [contradiction N; reflexivity |]. reflexivity. }
  unfold report_lines. rewrite P. cbn [andb List.concat].
  rewrite !app_nil_r, <- !app_assoc.
  split; [reflexivity |]. split; [reflexivity |].
  unfold detail_section. cbn [List.concat]. rewrite app_nil_r.
  split; [| split; [| split]].
  - rewrite length_app, length_app, length_map. simpl. lia.
  - cbn [app skipn].
    rewrite <- (length_map detail_row samples) at 1.
    rewrite firstn_app, firstn_all, Nat.sub_diag. cbn [firstn].
    apply app_nil_r.
  - eexists. split; [| reflexivity]. reflexivity.
  - rewrite app_assoc. apply last_last.
Qed.

Lemma detailed_adds_table_witness :
  Inputs.healthy3 <> [] /\
  List.length (detail_section Inputs.healthy3) = 10%nat /\
  last (detail_section Inputs.healthy3) "DETAILED BREAKDOWN" = "".
Proof.
  assert (N : Inputs.healthy3 <> []) by discriminate.
  destruct (detailed_adds_table Inputs.healthy3 "latency.txt"
              (Parse.int_literal 0) N) as [body [_ [_ [L [_ [_ E]]]]]].
  exact (conj N (conj L E)).
Defined.

Lemma ceil_third_le (c : nat) : ((c + 2) / 3 <= c)%nat.
Proof.
  destruct c as [| c]; [reflexivity |].
  apply Nat.Div0.div_le_upper_bound. lia.
Qed.

(** X6: where the trend is checked, on five samples or more, the early
    average sums the first n // 3 P95 values and the late average the last
    (n + 2) // 3 of them, and both sums are divided by n // 3. *)
Theorem trend_windows (samples : list LatencySample) (count : nat) :
  count = List.length samples ->
  (5 <= count)%nat ->
  early_avg samples
  = div (sum (firstn (count / 3) (p95_values samples)))
      (Parse.int_literal (Z.of_nat (count / 3))) /\
  late_avg samples
  = div (sum (skipn (count - (count + 2) / 3) (p95_values samples)))
      (Parse.int_literal (Z.of_nat (count / 3))) /\
  List.length (skipn (count - (count + 2) / 3) (p95_values samples))
  = ((count + 2) / 3)%nat.
Proof.
  intros -> _. set (count := List.length samples).
  assert (C : List.length (p95_values samples) = count)
    by (unfold p95_values; apply length_map).
  assert (D : n samples / 3 = Z.of_nat (count / 3)).
  { unfold n. rewrite C, Nat2Z.inj_div. reflexivity. }
  assert (U : ((count + 2) / 3 <= count)%nat) by apply ceil_third_le.
  split; [| split].
  - unfold early_avg, slice_to. rewrite D, Nat2Z.id. reflexivity.
  - unfold late_avg, slice_from. rewrite D. f_equal. f_equal. f_equal.
    rewrite C. unfold n. rewrite C.
    apply Nat2Z.inj. rewrite Nat2Z.inj_sub by exact U.
    rewrite Nat2Z.inj_div, Nat2Z.inj_add. simpl Z.of_nat.
    destruct (- Z.of_nat count / 3 <? 0) eqn:E.
    + rewrite Z2Nat.id; Z.to_euclidean_division_equations; lia.
    + apply Z.ltb_ge in E.
      rewrite Z2Nat.id; Z.to_euclidean_division_equations; lia.
  - rewrite length_skipn, C. lia.
Qed.

Lemma trend_windows_witness :
  5%nat = List.length Inputs.flat5 /\
  (5 <= 5)%nat /\
  List.length (skipn (5 - (5 + 2) / 3) (p95_values Inputs.flat5)) = 2%nat.
Proof.
  assert (E : 5%nat = List.length Inputs.flat5) by reflexivity.
  assert (F : (5 <= 5)%nat) by lia.
  exact (conj E (conj F (proj2 (proj2 (trend_windows Inputs.flat5 5 E F))))).
Defined.

End Layout.

(** ** What the extractor yields *)

Section Yield.
Import Regex Extract FloatOrder.

Lemma extend_converse (matches : list groups) :
  forall (before found : list LatencySample),
    Forall2 (fun g s => sample_of_match g = Ok s) matches found ->
    extend before matches = Ok (before ++ found)%list.
Proof.
  induction matches as [| g rest IH]; intros before found F;
    inversion F as [| g' s rest' found' Hs Hrest]; subst; cbn [extend].
  - rewrite app_nil_r. reflexivity.
  - rewrite Hs. unfold bind. rewrite (IH _ _ Hrest), <- app_assoc.
    reflexivity.
Qed.

(** X7: extraction succeeds exactly when every match of the pattern
    converts, and then returns one sample for each match, in the order of
    the matches; otherwise it raises and returns no sample at all. *)
Theorem extract_one_per_match (content : string)
  (samples : list LatencySample) :
  (extract content = Ok samples <->
   Forall2 (fun g s => sample_of_match g = Ok s)
     (findall pattern content) samples) /\
  (extract content = Ok samples ->
   List.length samples = List.length (findall pattern content)).
Proof.
  unfold extract.
  assert (I : extend [] (findall pattern content) = Ok samples <->
              Forall2 (fun g s => sample_of_match g = Ok s)
                (findall pattern content) samples).
  { split.
    - intros H. apply extend_samples in H. destruct H as [found [-> F]].
      exact F.
    - intros F. apply (extend_converse _ [] samples F). }
  split; [exact I |].
  intros H. apply I in H. symmetry. exact (Forall2_length H).
Qed.

Lemma extract_one_per_match_witness :
  extract Inputs.short_log = Ok Inputs.short_samples /\
  List.length Inputs.short_samples
  = List.length (findall pattern Inputs.short_log).
Proof.
  assert (E : extract Inputs.short_log = Ok Inputs.short_samples)
    by (vm_compute; reflexivity).
  exact (conj E
           (proj2 (extract_one_per_match Inputs.short_log Inputs.short_samples)
              E)).
Defined.

(** Digits write a number that is not negative. *)
Lemma digits_nonneg (s : string) :
  forall acc n, 0 <= acc -> Parse.digits acc s = Some n -> 0 <= n.
Proof.
  induction s as [| c s IH]; intros acc n A H; cbn [Parse.digits] in H.
  - injection H as <-. exact A.
  - destruct (PyStr.isdigit c) eqn:D; [| discriminate H].
    apply (IH _ _) in H; [exact H |].
    unfold PyStr.isdigit in D. apply andb_true_iff in D.
    destruct D as [D _]. apply N.leb_le in D. lia.
Qed.

Lemma int_of_str_nonneg (s : string) (n : Z) :
  Parse.int_of_str s = Ok n -> 0 <= n.
Proof.
  unfold Parse.int_of_str. destruct s as [| c s]; [discriminate |].
  destruct (Parse.digits 0 (String c s)) as [m |] eqn:E; [| discriminate].
  intros H. apply Ok_inj in H. subst m.
  exact (digits_nonneg _ 0 n (Z.le_refl 0) E).
Qed.

(** Rounding a mantissa that is not negative gives no NaN and no negative
    float. *)
Lemma shr_1_nonneg (mrs : shr_record) :
  0 <= shr_m mrs -> 0 <= shr_m (shr_1 mrs).
Proof.
  destruct mrs as [m r s]. destruct m as [| [p | p |] | p]; simpl; lia.
Qed.

Lemma iter_pos_nonneg (p : positive) :
  forall mrs, 0 <= shr_m mrs -> 0 <= shr_m (iter_pos shr_1 p mrs).
Proof.
  induction p as [p IH | p IH |]; intros mrs H; cbn [iter_pos].
  - apply IH, IH, shr_1_nonneg, H.
  - apply IH, IH, H.
  - apply shr_1_nonneg, H.
Qed.

Lemma shr_fexp_nonneg (m e : Z) (l : location) :
  0 <= m -> 0 <= shr_m (fst (shr_fexp prec emax m e l)).
Proof.
  intros H. unfold shr_fexp, shr.
  assert (R : 0 <= shr_m (shr_record_of_loc m l))
    by (destruct l as [| []]; exact H).
  destruct (fexp prec emax (Zdigits2 m + e) - e) as [| p | p]; cbn [fst];
    try exact R.
  apply iter_pos_nonneg, R.
Qed.

Lemma binary_round_aux_nonneg (mx ex : Z) (lx : location) :
  0 <= mx -> nonneg (binary_round_aux prec emax false mx ex lx) = true.
Proof.
  intros H. unfold binary_round_aux.
  pose proof (shr_fexp_nonneg mx ex lx H) as H1.
  destruct (shr_fexp prec emax mx ex lx) as [mrs' e']. cbn [fst] in H1.
  assert (H2 : 0 <= round_nearest_even (shr_m mrs') (loc_of_shr_record mrs')).
  { unfold round_nearest_even.
    destruct (loc_of_shr_record mrs') as [| []]; try lia.
    destruct (Z.even (shr_m mrs')); lia. }
  pose proof (shr_fexp_nonneg _ e' loc_Exact H2) as H3.
  destruct (shr_fexp prec emax _ e' loc_Exact) as [mrs'' e''].
  cbn [fst] in H3.
  destruct (shr_m mrs'') as [| p | p]; try reflexivity; [| lia].
  destruct (e'' <=? emax - prec); reflexivity.
Qed.

Lemma of_decimal_nonneg (m : Z) (k : nat) : nonneg (of_decimal m k) = true.
Proof.
  unfold of_decimal. destruct m as [| p | p]; try reflexivity.
  set (d := 10 ^ Z.of_nat k).
  set (s := Z.max 0 (64 + Z.log2 d - Z.log2 (Z.pos p))).
  assert (Q : 0 <= Z.shiftl (Z.pos p) s / d).
  { apply Z.div_pos.
    - apply Z.shiftl_nonneg. lia.
    - unfold d. apply Z.pow_pos_nonneg; lia. }
  unfold Z.div in Q.
  destruct (Z.div_eucl (Z.shiftl (Z.pos p) s) d) as [q r]. cbn [fst] in Q.
  apply binary_round_aux_nonneg, Q.
Qed.

Lemma float_of_str_nonneg (s : string) (x : float) :
  Parse.float_of_str s = Ok x -> nonneg x = true.
Proof.
  unfold Parse.float_of_str.
  destruct (Parse.split_dot s) as [a b].
  destruct (a ++ match b with Some f => f | None => "" end) as [| c t] eqn:E;
    [discriminate |].
  destruct (Parse.digits 0 a); [| discriminate].
  destruct (Parse.digits 0 match b with Some f => f | None => "" end);
    [| discriminate].
  destruct (Parse.digits 0 (String c t)); [| discriminate].
  intros H. apply Ok_inj in H. subst x. apply of_decimal_nonneg.
Qed.

Lemma sample_of_match_nonneg (g : groups) (s : LatencySample) :
  sample_of_match g = Ok s ->
  0 <= sample_count s /\ 0 <= total_samples s /\
  nonneg (p50_ms s) = true /\ nonneg (p95_ms s) = true /\
  nonneg (p99_ms s) = true.
Proof.
  intros Hs. unfold sample_of_match, bind in Hs.
  destruct (Parse.int_of_str (g 2%nat)) as [sc |] eqn:E2; [| discriminate Hs].
  destruct (Parse.int_of_str (g 3%nat)) as [tot |] eqn:E3; [| discriminate Hs].
  destruct (Parse.float_of_str (g 4%nat)) as [f50 |] eqn:E4; [| discriminate Hs].
  destruct (Parse.float_of_str (g 5%nat)) as [f95 |] eqn:E5; [| discriminate Hs].
  destruct (Parse.float_of_str (g 6%nat)) as [f99 |] eqn:E6; [| discriminate Hs].
  apply Ok_inj in Hs. subst s. cbn [sample_count total_samples p50_ms p95_ms p99_ms].
  repeat split;
    eauto using int_of_str_nonneg, float_of_str_nonneg.
Qed.

Lemma extracted_each (P : LatencySample -> Prop) (content : string)
  (samples : list LatencySample) :
  (forall g s, sample_of_match g = Ok s -> P s) ->
  extract content = Ok samples -> Forall P samples.
Proof.
  unfold extract. intros A H.
  apply extend_samples in H. destruct H as [found [-> F]]. simpl.
  induction F as [| g s gs ss Hs F IH]; constructor; [| exact IH].
  exact (A g s Hs).
Qed.

(** X8: every sample extracted from a log has counts that are not
    negative and percentiles that are neither NaN nor negative. *)
Theorem extracted_values_nonneg (content : string)
  (samples : list LatencySample) :
  extract content = Ok samples ->
  Forall
    (fun s =>
       0 <= sample_count s /\ 0 <= total_samples s /\
       nonneg (p50_ms s) = true /\ nonneg (p95_ms s) = true /\
       nonneg (p99_ms s) = true)
    samples.
Proof.
  apply extracted_each. exact sample_of_match_nonneg.
Qed.

Lemma extracted_values_nonneg_witness :
  extract Inputs.short_log = Ok Inputs.short_samples /\
  Forall
    (fun s =>
       0 <= sample_count s /\ 0 <= total_samples s /\
       nonneg (p50_ms s) = true /\ nonneg (p95_ms s) = true /\
       nonneg (p99_ms s) = true)
    Inputs.short_samples.
Proof.
  assert (E : extract Inputs.short_log = Ok Inputs.short_samples)
    by (vm_compute; reflexivity).
  exact (conj E (extracted_values_nonneg Inputs.short_log Inputs.short_samples E)).
Defined.

Lemma nonneg_not_nan (x : float) : nonneg x = true -> is_nan x = false.
Proof. destruct x as [s | s | | s m e]; try reflexivity. discriminate. Qed.

(** X9: on the samples of a log the peak rule is a rule on every window:
    the greatest P95 is under 100.0 exactly when the P95 of each sample
    is; so a run that passes has every P95 under 100.0. *)
Theorem extracted_peak_rule (content : string)
  (samples : list LatencySample) :
  extract content = Ok samples ->
  samples <> [] ->
  (lt (Report.max_p95 samples) (Parse.literal "100.0") = true <->
   Forall (fun s => lt (p95_ms s) (Parse.literal "100.0") = true) samples) /\
  (Report.validation_passed samples = true ->
   Forall (fun s => lt (p95_ms s) (Parse.literal "100.0") = true) samples).
Proof.
  intros E N.
  assert (I : lt (Report.max_p95 samples) (Parse.literal "100.0") = true <->
              Forall (fun s => lt (p95_ms s) (Parse.literal "100.0") = true)
                samples).
  { apply max_p95_lt_iff; [exact N |].
    revert E. apply extracted_each. intros g s Hs.
    apply nonneg_not_nan. apply (sample_of_match_nonneg g s Hs). }
  split; [exact I |].
  intros V. apply I. unfold Report.validation_passed in V.
  rewrite !andb_true_iff in V. tauto.
Qed.

Lemma extracted_peak_rule_witness :
  extract Inputs.short_log = Ok Inputs.short_samples /\
  Inputs.short_samples <> [] /\
  (lt (Report.max_p95 Inputs.short_samples) (Parse.literal "100.0") = true <->
   Forall (fun s => lt (p95_ms s) (Parse.literal "100.0") = true)
     Inputs.short_samples).
Proof.
  assert (E : extract Inputs.short_log = Ok Inputs.short_samples)
    by (vm_compute; reflexivity).
  assert (N : Inputs.short_samples <> []) by discriminate.
  exact (conj E (conj N
           (proj1 (extracted_peak_rule Inputs.short_log Inputs.short_samples
                     E N)))).
Defined.

End Yield.

(** ** Where a match sits in the text *)

Section Places.
Import Regex Extract Header.

Lemma greedily_suffix {A : Type} (p : ascii -> bool) (k : string -> option A)
  (s : string) (a : A) :
  greedily p k s = Some a -> exists pre s', s = pre ++ s' /\ k s' = Some a.
Proof.
  induction s as [| c s IH]; simpl; intros H.
  - exists "", "". split; [reflexivity | exact H].
  - destruct (p c).
    + destruct (greedily p k s) as [b |] eqn:E.
      * injection H as <-. destruct (IH eq_refl) as [pre [s' [-> K]]].
        exists (String c pre), s'. split; [reflexivity | exact K].
      * exists "", (String c s). split; [reflexivity | exact H].
    + exists "", (String c s). split; [reflexivity | exact H].
Qed.

Lemma lazily_suffix {A : Type} (p : ascii -> bool) (k : string -> option A)
  (s : string) (a : A) :
  lazily p k s = Some a -> exists pre s', s = pre ++ s' /\ k s' = Some a.
Proof.
  induction s as [| c s IH]; simpl; intros H.
  - destruct (k "") eqn:E; [| discriminate H].
    exists "", "". split; [reflexivity | rewrite E; exact H].
  - destruct (k (String c s)) eqn:E.
    + exists "", (String c s). split; [reflexivity | rewrite E; exact H].
    + destruct (p c); [| discriminate H].
      destruct (IH H) as [pre [s' [-> K]]].
      exists (String c pre), s'. split; [reflexivity | exact K].
Qed.

(** A run hands to its continuation a suffix of its input. *)
Lemma run_suffix {A : Type} (r : regex) :
  forall (s : string) (g : groups) (k : string -> groups -> option A) (a : A),
    run r s g k = Some a ->
    exists pre s' g', s = pre ++ s' /\ k s' g' = Some a.
Proof.
  induction r as [| p | r1 IH1 r2 IH2 | r1 IH1 r2 IH2 | p | p | i r IH];
    intros s g k a H; cbn [run] in H.
  - exists "", s, g. split; [reflexivity | exact H].
  - destruct s as [| c s]; [discriminate H |].
    destruct (p c); [| discriminate H].
    exists (String c ""), s, g. split; [reflexivity | exact H].
  - apply IH1 in H. destruct H as [pre1 [s1 [g1 [-> H]]]].
    apply IH2 in H. destruct H as [pre2 [s2 [g2 [-> H]]]].
    exists (pre1 ++ pre2), s2, g2. split; [| exact H].
    rewrite append_assoc. reflexivity.
  - destruct (run r1 s g k) as [b |] eqn:E.
    + injection H as <-. exact (IH1 _ _ _ _ E).
    + exact (IH2 _ _ _ _ H).
  - apply greedily_suffix in H. destruct H as [pre [s' [-> H]]].
    exists pre, s', g. split; [reflexivity | exact H].
  - apply lazily_suffix in H. destruct H as [pre [s' [-> H]]].
    exists pre, s', g. split; [reflexivity | exact H].
  - apply IH in H. destruct H as [pre [s1 [g1 [E H]]]].
    exists pre, s1, (set_group i (consumed s s1) g1).
    split; [exact E | exact H].
Qed.

Lemma scan_suffix (r : regex) (s : string) :
  forall (skip : nat) (g : groups),
    In g (scan r skip s) ->
    exists pre s' rest, s = pre ++ s' /\ match_here r s' = Some (g, rest).
Proof.
  induction s as [| c s IH]; intros skip g H.
  - destruct skip as [| k]; cbn [scan] in H; [| destruct H].
    destruct (match_here r "") as [[g0 rest] |] eqn:E; [| destruct H].
    destruct H as [<- | []]. exists "", "", rest. split; [reflexivity | exact E].
  - assert (T : forall k, In g (scan r k s) ->
                exists pre s' rest,
                  String c s = pre ++ s' /\ match_here r s' = Some (g, rest)).
    { intros k Hk. destruct (IH _ _ Hk) as [pre [s' [rest [-> M]]]].
      exists (String c pre), s', rest. split; [reflexivity | exact M]. }
    destruct skip as [| k]; cbn [scan] in H; [| exact (T _ H)].
    destruct (match_here r (String c s)) as [[g0 rest] |] eqn:E.
    + destruct H as [<- | H]; [| exact (T _ H)].
      exists "", (String c s), rest. split; [reflexivity | exact E].
    + exact (T _ H).
Qed.

Lemma contains_here (p s : string) : PyStr.contains p (p ++ s) = true.
Proof.
  assert (S : PyStr.startswith p (p ++ s) = true) by apply startswith_append.
  destruct (p ++ s); cbn [PyStr.contains]; rewrite S; reflexivity.
Qed.

(** A match of the pattern holds the header. *)
Lemma match_has_header (s rest : string) (g : groups) :
  match_here pattern s = Some (g, rest) -> PyStr.contains header s = true.
Proof.
  unfold match_here, pattern. cbn [seq]. intros H.
  rewrite run_seq in H. apply run_suffix in H.
  destruct H as [pre1 [s1 [g1 [-> H]]]].
  rewrite run_seq in H. apply run_suffix in H.
  destruct H as [pre2 [s2 [g2 [-> H]]]].
  rewrite run_seq in H. apply run_lit in H.
  destruct H as [s3 [-> _]].
  apply contains_app_r, contains_app_r, contains_here.
Qed.

Lemma no_header_no_match (content : string) :
  PyStr.contains header content = false -> findall pattern content = [].
Proof.
  intros H. unfold findall.
  destruct (scan pattern 0 content) as [| g l] eqn:E; [reflexivity |].
  assert (I : In g (scan pattern 0 content)) by (rewrite E; left; reflexivity).
  apply scan_suffix in I. destruct I as [pre [s' [rest [-> M]]]].
  apply match_has_header in M.
  rewrite (contains_app_r header pre s' M) in H. discriminate H.
Qed.

End Places.

(** ** Runs that find nothing, and runs that raise *)

Section Failures.
Import Header.

(** The run on a log in which the pattern matches nowhere. *)
Lemma main_no_match (args : Analyzer.Args) (w : IO.World) (content : string) :
  IO.files w (PyPath.str (PyPath.of_str (Analyzer.arg_log_file args)))
  = Some content ->
  Regex.findall Extract.pattern content = [] ->
  Analyzer.main args w
  = (Ok 1,
     IO.mkWorld (IO.files w) (IO.refused w)
       (IO.stdout w
          ++ ["Parsing log file: "
                ++ PyPath.str (PyPath.of_str (Analyzer.arg_log_file args));
              "Found 0 latency statistics entries" ++ PyStr.nl])
       (IO.stderr w ++ not_found_lines)).
Proof.
  intros F M.
  unfold Analyzer.main, Analyzer.parse_logs, Analyzer.init, IO.bindM,
    IO.exists_, IO.read, IO.lift, IO.print, IO.eprint, IO.ret.
  cbn [Analyzer.log_file Analyzer.samples IO.files fst snd].
  rewrite F. cbn [negb]. cbv beta iota. rewrite F. cbv beta iota.
  rewrite M. cbn [Extract.extend List.length Nat.eqb negb].
  cbn [IO.files IO.refused IO.stdout IO.stderr].
  unfold not_found_lines. rewrite <- !app_assoc. reflexivity.
Qed.

(** X10: when the log file does not exist the run prints the error and
    the two lines of advice on the error stream, prints nothing else,
    touches no file and exits with status 1. *)
Theorem missing_log_file (args : Analyzer.Args) (w : IO.World) :
  IO.files w (PyPath.str (PyPath.of_str (Analyzer.arg_log_file args)))
  = None ->
  Analyzer.main args w
  = (Ok 1,
     IO.mkWorld (IO.files w) (IO.refused w) (IO.stdout w)
       (IO.stderr w
          ++ ("Error: Log file '"
                ++ PyPath.str (PyPath.of_str (Analyzer.arg_log_file args))
                ++ "' not found")
             :: not_found_lines)) /\
  Analyzer.exit_code args w = 1.
Proof.
  intros F.
  assert (M : Analyzer.main args w
              = (Ok 1,
                 IO.mkWorld (IO.files w) (IO.refused w) (IO.stdout w)
                   (IO.stderr w
                      ++ ("Error: Log file '"
                ++ PyPath.str (PyPath.of_str (Analyzer.arg_log_file args))
                            ++ "' not found") :: not_found_lines))).
  { unfold Analyzer.main, Analyzer.parse_logs, Analyzer.init, IO.bindM,
      IO.exists_, IO.read, IO.lift, IO.print, IO.eprint, IO.ret.
    cbn [Analyzer.log_file Analyzer.samples IO.files fst snd].
    rewrite F. cbn [negb]. cbv beta iota.
    cbn [IO.files IO.refused IO.stdout IO.stderr].
    unfold not_found_lines. rewrite <- !app_assoc. reflexivity. }
  split; [exact M |]. unfold Analyzer.exit_code. rewrite M. reflexivity.
Qed.

Lemma missing_log_file_witness :
  IO.files Inputs.short_world
    (PyPath.str (PyPath.of_str (Analyzer.arg_log_file MoreInputs.absent_args)))
  = None /\
  IO.stderr (snd (Analyzer.main MoreInputs.absent_args Inputs.short_world))
  = "Error: Log file 'logs/absent.txt' not found" :: not_found_lines /\
  Analyzer.exit_code MoreInputs.absent_args Inputs.short_world = 1.
Proof.
  assert (F : IO.files Inputs.short_world
                (PyPath.str
                   (PyPath.of_str
                      (Analyzer.arg_log_file MoreInputs.absent_args)))
              = None)
    by reflexivity.
  exact (conj F
           (conj (f_equal (fun r => IO.stderr (snd r))
                    (proj1 (missing_log_file MoreInputs.absent_args
                              Inputs.short_world F)))
              (proj2 (missing_log_file MoreInputs.absent_args
                        Inputs.short_world F)))).
Defined.

(** X11: a log that nowhere holds the header of a statistics block yields
    no sample: the run prints that it found 0 entries, prints the two
    lines of advice on the error stream, renders no report, writes no
    file and exits with status 1. *)
Theorem no_header_no_samples (args : Analyzer.Args) (w : IO.World)
  (content : string) :
  IO.files w (PyPath.str (PyPath.of_str (Analyzer.arg_log_file args)))
  = Some content ->
  PyStr.contains header content = false ->
  Extract.extract content = Ok [] /\
  Analyzer.main args w
  = (Ok 1,
     IO.mkWorld (IO.files w) (IO.refused w)
       (IO.stdout w
          ++ ["Parsing log file: "
                ++ PyPath.str (PyPath.of_str (Analyzer.arg_log_file args));
              "Found 0 latency statistics entries" ++ PyStr.nl])
       (IO.stderr w ++ not_found_lines)) /\
  Analyzer.exit_code args w = 1.
Proof.
  intros F H. pose proof (no_header_no_match content H) as M.
  pose proof (main_no_match args w content F M) as R.
  split; [| split].
  - unfold Extract.extract. rewrite M. reflexivity.
  - exact R.
  - unfold Analyzer.exit_code. rewrite R. reflexivity.
Qed.

Lemma no_header_no_samples_witness :
  IO.files MoreInputs.noise_world
    (PyPath.str (PyPath.of_str (Analyzer.arg_log_file MoreInputs.dotted_args)))
  = Some MoreInputs.noise_log /\
  PyStr.contains header MoreInputs.noise_log = false /\
  IO.stdout (snd (Analyzer.main MoreInputs.dotted_args MoreInputs.noise_world))
  = ["Parsing log file: latency.txt";
     "Found 0 latency statistics entries" ++ PyStr.nl] /\
  Analyzer.exit_code MoreInputs.dotted_args MoreInputs.noise_world = 1.
Proof.
  assert (F : IO.files MoreInputs.noise_world
                (PyPath.str
                   (PyPath.of_str
                      (Analyzer.arg_log_file MoreInputs.dotted_args)))
              = Some MoreInputs.noise_log) by reflexivity.
  assert (H : PyStr.contains header MoreInputs.noise_log = false)
    by (vm_compute; reflexivity).
  exact (conj F (conj H
           (conj (f_equal (fun r => IO.stdout (snd r))
                    (proj1 (proj2 (no_header_no_samples MoreInputs.dotted_args
                                     MoreInputs.noise_world
                                     MoreInputs.noise_log F H))))
              (proj2 (proj2 (no_header_no_samples MoreInputs.dotted_args
                               MoreInputs.noise_world MoreInputs.noise_log
                               F H)))))).
Defined.

(** The run up to the report, when extraction raises. *)
Lemma main_extract_raises (args : Analyzer.Args) (w : IO.World)
  (content : string) (e : exn) :
  IO.files w (PyPath.str (PyPath.of_str (Analyzer.arg_log_file args)))
  = Some content ->
  Extract.extract content = Raise e ->
  Analyzer.main args w
  = (Raise e,
     IO.mkWorld (IO.files w) (IO.refused w)
       (IO.stdout w ++ ["Parsing log file: "
                ++ PyPath.str (PyPath.of_str (Analyzer.arg_log_file args))])
       (IO.stderr w)).
Proof.
  intros F X. unfold Extract.extract in X.
  unfold Analyzer.main, Analyzer.parse_logs, Analyzer.init, IO.bindM,
    IO.exists_, IO.read, IO.lift, IO.print, IO.eprint, IO.ret.
  cbn [Analyzer.log_file Analyzer.samples IO.files fst snd].
  rewrite F. cbn [negb]. cbv beta iota. rewrite F. cbv beta iota.
  rewrite X. reflexivity.
Qed.

(** The run up to the report, when rendering raises. *)
Lemma main_report_raises (args : Analyzer.Args) (w : IO.World)
  (content : string) (samples : list LatencySample) (e : exn) :
  IO.files w (PyPath.str (PyPath.of_str (Analyzer.arg_log_file args)))
  = Some content ->
  Extract.extract content = Ok samples ->
  samples <> [] ->
  Report.generate_report samples
    (PyPath.name (PyPath.of_str (Analyzer.arg_log_file args)))
    (Analyzer.arg_detailed args) = Raise e ->
  Analyzer.main args w
  = (Raise e,
     IO.mkWorld (IO.files w) (IO.refused w)
       (IO.stdout w
          ++ ["Parsing log file: "
                ++ PyPath.str (PyPath.of_str (Analyzer.arg_log_file args));
              "Found " ++ PyStr.of_int (Z.of_nat (List.length samples))
                ++ " latency statistics entries" ++ PyStr.nl])
       (IO.stderr w)).
Proof.
  intros F X N R. unfold Extract.extract in X.
  unfold Analyzer.main, Analyzer.parse_logs, Analyzer.init, IO.bindM,
    IO.exists_, IO.read, IO.lift, IO.print, IO.eprint, IO.ret.
  cbn [Analyzer.log_file Analyzer.samples IO.files fst snd].
  rewrite F. cbn [negb]. cbv beta iota. rewrite F. cbv beta iota.
  rewrite X.
  destruct samples as [| s rest]; [contradiction N; reflexivity |].
  cbn [List.length Nat.eqb negb]. cbv beta iota.
  unfold Analyzer.generate_report. cbn [Analyzer.log_file Analyzer.samples].
  rewrite R. cbv beta iota.
  cbn [IO.files IO.refused IO.stdout IO.stderr].
  rewrite <- !app_assoc. reflexivity.
Qed.

(** X12: an exception raised while the samples are converted or while
    the report is rendered leaves [main]: the run exits with status 1
    without a report, without the lines of advice and without a CSV
    file. *)
Theorem exception_ends_run (args : Analyzer.Args) (w : IO.World)
  (content : string) (e : exn) :
  IO.files w (PyPath.str (PyPath.of_str (Analyzer.arg_log_file args)))
  = Some content ->
  (Extract.extract content = Raise e \/
   exists samples,
     Extract.extract content = Ok samples /\ samples <> [] /\
     Report.generate_report samples
       (PyPath.name (PyPath.of_str (Analyzer.arg_log_file args)))
       (Analyzer.arg_detailed args) = Raise e) ->
  fst (Analyzer.main args w) = Raise e /\
  Analyzer.exit_code args w = 1 /\
  IO.files (snd (Analyzer.main args w)) = IO.files w /\
  IO.stderr (snd (Analyzer.main args w)) = IO.stderr w.
Proof.
  intros F [X | [samples [X [N R]]]].
  - pose proof (main_extract_raises args w content e F X) as M.
    unfold Analyzer.exit_code. rewrite M. repeat split.
  - pose proof (main_report_raises args w content samples e F X N R) as M.
    unfold Analyzer.exit_code. rewrite M. repeat split.
Qed.

Lemma exception_ends_run_witness :
  IO.files (Inputs.world MoreInputs.huge_log "")
    (PyPath.str (PyPath.of_str (Analyzer.arg_log_file Inputs.args))) = Some MoreInputs.huge_log /\
  fst (Analyzer.main Inputs.args (Inputs.world MoreInputs.huge_log ""))
  = Raise OverflowError.
Proof.
  assert (F : IO.files (Inputs.world MoreInputs.huge_log "")
                (PyPath.str (PyPath.of_str (Analyzer.arg_log_file Inputs.args))) = Some MoreInputs.huge_log)
    by reflexivity.
  assert (S : exists samples,
             Extract.extract MoreInputs.huge_log = Ok samples /\
             samples <> [] /\
             Report.generate_report samples
               (PyPath.name (PyPath.of_str (Analyzer.arg_log_file Inputs.args)))
               (Analyzer.arg_detailed Inputs.args) = Raise OverflowError).
  { destruct (Extract.extract MoreInputs.huge_log) as [samples | e] eqn:X.
    - exists samples. split; [reflexivity |].
      vm_compute in X. apply Ok_inj in X. subst samples.
      split; [discriminate | vm_compute; reflexivity].
    - vm_compute in X. discriminate X. }
  exact (conj F
           (proj1 (exception_ends_run Inputs.args _ MoreInputs.huge_log
                     OverflowError F (or_intror S)))).
Defined.

End Failures.

(** ** Runs that report *)

Section Reports.
Import Report.


Lemma export_csv_never_raises (self : Analyzer.LatencyAnalyzer)
  (output_file : string) (w : IO.World) :
  exists b, fst (Analyzer.export_csv self output_file w) = Ok b.
Proof.
  unfold Analyzer.export_csv, IO.bindM, IO.write, IO.print, IO.eprint, IO.ret.
  destruct (Analyzer.samples self); [eexists; reflexivity |].
  destruct (IO.refused w output_file); eexists; reflexivity.
Qed.

(** X14: whether a CSV file was asked for, and whether writing it
    worked, changes neither the result of [main] nor the exit status. *)
Theorem csv_leaves_status (log_file : string) (detailed : bool)
  (csv : option string) (w : IO.World) :
  fst (Analyzer.main (Analyzer.mkArgs log_file detailed csv) w)
  = fst (Analyzer.main (Analyzer.mkArgs log_file detailed None) w) /\
  Analyzer.exit_code (Analyzer.mkArgs log_file detailed csv) w
  = Analyzer.exit_code (Analyzer.mkArgs log_file detailed None) w.
Proof.
  assert (M : fst (Analyzer.main (Analyzer.mkArgs log_file detailed csv) w)
              = fst (Analyzer.main (Analyzer.mkArgs log_file detailed None) w)).
  { unfold Analyzer.main, IO.bindM.
    cbn [Analyzer.arg_log_file Analyzer.arg_detailed Analyzer.arg_csv].
    destruct (Analyzer.parse_logs (Analyzer.init log_file) w)
      as [[[found analyzer] | e] w1]; [| reflexivity].
    destruct found; cbn [negb]; [| reflexivity].
    unfold IO.lift.
    destruct (Analyzer.generate_report analyzer detailed) as [report | e];
      [| reflexivity].
    unfold IO.print, IO.ret.
    destruct csv as [[| c p] |]; try reflexivity.
    destruct (export_csv_never_raises analyzer (String c p)
                (IO.mkWorld (IO.files w1) (IO.refused w1)
                   (IO.stdout w1 ++ [report]) (IO.stderr w1))) as [b X].
    destruct (Analyzer.export_csv analyzer (String c p) _) as [[b' | e] w2];
      [reflexivity | discriminate X]. }
  split; [exact M |]. unfold Analyzer.exit_code. rewrite M. reflexivity.
Qed.

(** X15: a run whose samples pass the validation, and whose report is
    rendered, exits with status 0. *)
Theorem passing_run_exits_zero (args : Analyzer.Args) (w : IO.World)
  (content : string) (samples : list LatencySample) (report : string) :
  IO.files w (PyPath.str (PyPath.of_str (Analyzer.arg_log_file args)))
  = Some content ->
  Extract.extract content = Ok samples ->
  generate_report samples
    (PyPath.name (PyPath.of_str (Analyzer.arg_log_file args)))
    (Analyzer.arg_detailed args) = Ok report ->
  validation_passed samples = true ->
  Analyzer.exit_code args w = 0 /\
  PyStr.contains ("Overall Validation: " ++ pass_text) report = true.
Proof.
  intros F X R V.
  assert (N : samples <> []).
  { intros ->. vm_compute in V. discriminate V. }
  split.
  - apply (exit_zero_when_peak_passes args w content samples report F X N R).
    unfold validation_passed in V. rewrite !andb_true_iff in V. tauto.
  - destruct (generate_report_lines samples _ _ report N R) as [rate [_ ->]].
    destruct (report_lines_section samples
                (PyPath.name (PyPath.of_str (Analyzer.arg_log_file args))) rate
                (Analyzer.arg_detailed args)) as [before [after ->]].
    apply contains_join with (x := "Overall Validation: " ++ verdict true).
    + apply in_or_app. right. apply in_or_app. left.
      unfold validation_section. rewrite V. do 5 right. left. reflexivity.
    + vm_compute. reflexivity.
Qed.

Lemma passing_run_exits_zero_witness :
  IO.files (Inputs.world MoreInputs.full_log "")
    (PyPath.str (PyPath.of_str (Analyzer.arg_log_file Inputs.args))) = Some MoreInputs.full_log /\
  Extract.extract MoreInputs.full_log = Ok MoreInputs.full_samples /\
  validation_passed MoreInputs.full_samples = true /\
  Analyzer.exit_code Inputs.args (Inputs.world MoreInputs.full_log "") = 0.
Proof.
  assert (F : IO.files (Inputs.world MoreInputs.full_log "")
                (PyPath.str (PyPath.of_str (Analyzer.arg_log_file Inputs.args))) = Some MoreInputs.full_log)
    by reflexivity.
  assert (X : Extract.extract MoreInputs.full_log = Ok MoreInputs.full_samples)
    by (vm_compute; reflexivity).
  assert (V : validation_passed MoreInputs.full_samples = true)
    by (vm_compute; reflexivity).
  destruct (generate_report MoreInputs.full_samples
              (PyPath.name (PyPath.of_str (Analyzer.arg_log_file Inputs.args)))
              (Analyzer.arg_detailed Inputs.args)) as [report | e] eqn:R.
  - exact (conj F (conj X (conj V
             (proj1 (passing_run_exits_zero Inputs.args _ MoreInputs.full_log
                       MoreInputs.full_samples report F X R V))))).
  - vm_compute in R. discriminate R.
Defined.

End Reports.

(** ** The heart rate measurement *)

Section Measurement.
Import Ble.

Lemma value_byte (b : Byte.byte) : 0 <= value b < 256.
Proof.
  unfold value. pose proof (Byte.to_N_bounded b) as H. lia.
Qed.

Lemma item_value (data : list Byte.byte) (i : nat) (b : Byte.byte) :
  nth_error data i = Some b -> item data i = Value (value b).
Proof. unfold item. intros ->. reflexivity. Qed.

(** A low byte and a high byte make the number [lo + 256 * hi]. *)
Lemma raw16_add (lo hi : Z) :
  0 <= lo < 256 -> 0 <= hi -> raw16 lo hi = lo + 256 * hi.
Proof.
  intros L H. unfold raw16.
  rewrite <- Z.lxor_lor, <- Z.add_nocarry_lxor.
  - rewrite Z.shiftl_mul_pow2 by lia. lia.
  - apply Z.bits_inj'. intros k K.
    rewrite Z.land_spec, Z.bits_0.
    destruct (Z.ltb_spec k 8) as [S | S].
    + rewrite (Z.shiftl_spec_low hi 8 k S). apply andb_false_r.
    + destruct (Z.eqb_spec lo 0) as [-> | NZ]; [rewrite Z.bits_0; reflexivity |].
      rewrite (Z.bits_above_log2 lo k); [reflexivity | lia |].
      apply Z.log2_lt_pow2; [lia |].
      apply Z.lt_le_trans with (2 ^ 8); [lia |].
      apply Z.pow_le_mono_r; lia.
  - apply Z.bits_inj'. intros k K.
    rewrite Z.land_spec, Z.bits_0.
    destruct (Z.ltb_spec k 8) as [S | S].
    + rewrite (Z.shiftl_spec_low hi 8 k S). apply andb_false_r.
    + destruct (Z.eqb_spec lo 0) as [-> | NZ]; [rewrite Z.bits_0; reflexivity |].
      rewrite (Z.bits_above_log2 lo k); [reflexivity | lia |].
      apply Z.log2_lt_pow2; [lia |].
      apply Z.lt_le_trans with (2 ^ 8); [lia |].
      apply Z.pow_le_mono_r; lia.
Qed.

(** Where the loop stands: two more bytes, or the end. *)
Lemma skipn_two (data : list Byte.byte) :
  forall offset,
    (offset + 1 < List.length data)%nat ->
    exists lo hi,
      nth_error data offset = Some lo /\
      nth_error data (offset + 1) = Some hi /\
      skipn offset data = lo :: hi :: skipn (offset + 2) data.
Proof.
  induction data as [| b data IH]; intros offset H; [simpl in H; lia |].
  destruct offset as [| offset].
  - destruct data as [| b' data]; [simpl in H; lia |].
    exists b, b'. repeat split.
  - simpl in H. destruct (IH offset) as [lo [hi [H1 [H2 H3]]]]; [lia |].
    exists lo, hi. repeat split; assumption.
Qed.

Lemma pairs_short (l : list Byte.byte) :
  (List.length l <= 1)%nat -> pairs l = [].
Proof.
  destruct l as [| a [| b l]]; try reflexivity. simpl. lia.
Qed.

(** The loop never indexes past the end, and with fuel enough it returns
    the intervals of the pairs that follow [offset]. *)
Lemma rr_loop_pairs (data : list Byte.byte) :
  forall fuel offset acc,
    (List.length data <= offset + fuel)%nat ->
    rr_loop fuel data offset acc
    = Value (acc ++ pairs (skipn offset data))%list.
Proof.
  induction fuel as [| fuel IH]; intros offset acc H; cbn [rr_loop].
  - rewrite pairs_short, app_nil_r; [reflexivity |].
    rewrite length_skipn. lia.
  - destruct (Nat.ltb_spec (offset + 1) (List.length data)) as [L | L].
    + destruct (skipn_two data offset L) as [lo [hi [H1 [H2 H3]]]].
      rewrite (item_value _ _ _ H1), (item_value _ _ _ H2). cbn [then_].
      rewrite IH by lia. rewrite H3. cbn [pairs].
      rewrite <- app_assoc. reflexivity.
    + rewrite pairs_short, app_nil_r; [reflexivity |].
      rewrite length_skipn. lia.
Qed.

Lemma pairs_length (l : list Byte.byte) :
  forall k, (List.length l <= k)%nat ->
            List.length (pairs l) = (List.length l / 2)%nat.
Proof.
  intros k. revert l.
  induction k as [| k IH]; intros l H.
  - destruct l; [reflexivity | simpl in H; lia].
  - destruct l as [| a [| b l]]; try reflexivity.
    cbn [pairs List.length]. rewrite IH by (simpl in H; lia).
    change (S (S (List.length l))) with (2 + List.length l)%nat.
    replace (2 + List.length l)%nat with (List.length l + 1 * 2)%nat by lia.
    rewrite Nat.div_add by lia. lia.
Qed.

(** What [parse_heart_rate] returns on a packet of two bytes or more, by
    the format bit. *)
Lemma parse_eight (flags b : Byte.byte) (rest : list Byte.byte) :
  Z.land (value flags) 1 = 0 ->
  parse_heart_rate (flags :: b :: rest)
  = Value (mkMeasurement (value b)
             (if Z.land (Z.shiftr (value flags) 4) 1 =? 0 then []
              else pairs rest)).
Proof.
  intros F. unfold parse_heart_rate.
  cbn [List.length Nat.ltb Nat.leb item nth_error then_]. fold (value flags).
  rewrite F. cbn [Z.eqb then_]. fold (value b).
  destruct (Z.land (Z.shiftr (value flags) 4) 1 =? 0); [reflexivity |].
  rewrite rr_loop_pairs by (simpl; lia). reflexivity.
Qed.

Lemma parse_sixteen (flags b1 b2 : Byte.byte) (rest : list Byte.byte) :
  Z.land (value flags) 1 <> 0 ->
  parse_heart_rate (flags :: b1 :: b2 :: rest)
  = Value (mkMeasurement (value b1 + 256 * value b2)
             (if Z.land (Z.shiftr (value flags) 4) 1 =? 0 then []
              else pairs rest)).
Proof.
  intros F. unfold parse_heart_rate.
  cbn [List.length Nat.ltb Nat.leb item nth_error then_]. fold (value flags).
  apply Z.eqb_neq in F. rewrite F. cbn [then_].
  fold (value b1). fold (value b2).
  change (Z.lor (value b1) (Z.shiftl (value b2) 8))
    with (raw16 (value b1) (value b2)).
  rewrite raw16_add by (pose proof (value_byte b1); pose proof (value_byte b2); lia).
  destruct (Z.land (Z.shiftr (value flags) 4) 1 =? 0); [reflexivity |].
  rewrite rr_loop_pairs by (simpl; lia). reflexivity.
Qed.

(** X16: [parse_heart_rate] raises [IndexError] on exactly one kind of
    packet: two bytes long with the sixteen-bit format flag set, where it
    reads the missing third byte.  Every other packet is decoded. *)
Theorem parse_raises_iff (data : list Byte.byte) :
  parse_heart_rate data = IndexError <->
  exists flags b,
    data = [flags; b] /\ Z.land (value flags) 1 <> 0.
Proof.
  destruct data as [| flags [| b1 [| b2 rest]]].
  - split; [discriminate | intros [f [b [E _]]]; discriminate E].
  - split; [discriminate | intros [f [b [E _]]]; discriminate E].
  - destruct (Z.eqb_spec (Z.land (value flags) 1) 0) as [F | F].
    + rewrite (parse_eight flags b1 [] F).
      split; [discriminate |].
      intros [f [b [E N]]]. injection E as <- <-. contradiction.
    + split.
      * intros _. exists flags, b1. split; [reflexivity | exact F].
      * intros _. unfold parse_heart_rate.
        cbn [List.length Nat.ltb Nat.leb item nth_error then_].
        fold (value flags). apply Z.eqb_neq in F. rewrite F. reflexivity.
  - split; [| intros [f [b [E _]]]; discriminate E].
    destruct (Z.eqb_spec (Z.land (value flags) 1) 0) as [F | F].
    + rewrite (parse_eight flags b1 (b2 :: rest) F). discriminate.
    + rewrite (parse_sixteen flags b1 b2 rest F). discriminate.
Qed.

End Measurement.

(** ** The decoded fields *)

Section Fields.
Import Ble.

(** X17: on a decoded packet the rate is the second byte in the eight-bit
    format and the little-endian number of the second and third bytes in
    the sixteen-bit format, so it lies below 256, respectively 65536. *)
Theorem bpm_decoded (flags b1 : Byte.byte) (rest : list Byte.byte)
  (m : Measurement) :
  parse_heart_rate (flags :: b1 :: rest) = Value m ->
  bpm m = (if Z.land (value flags) 1 =? 0 then value b1
           else value b1 + 256 * value (hd Byte.x00 rest)) /\
  0 <= bpm m < (if Z.land (value flags) 1 =? 0 then 256 else 65536).
Proof.
  pose proof (value_byte b1) as B1.
  destruct (Z.eqb_spec (Z.land (value flags) 1) 0) as [F | F].
  - rewrite (parse_eight flags b1 rest F). intros E.
    injection E as <-. split; [reflexivity |].
    change (0 <= value b1 < 256). lia.
  - destruct rest as [| b2 rest].
    + unfold parse_heart_rate.
      cbn [List.length Nat.ltb Nat.leb item nth_error then_].
      fold (value flags). apply Z.eqb_neq in F. rewrite F. discriminate.
    + rewrite (parse_sixteen flags b1 b2 rest F). intros E.
      injection E as <-. pose proof (value_byte b2) as B2.
      split; [reflexivity |].
      change (0 <= value b1 + 256 * value b2 < 65536). lia.
Qed.

Lemma bpm_decoded_witness :
  parse_heart_rate MoreInputs.packet16
  = Value (mkMeasurement 300 []) /\
  bpm (mkMeasurement 300 []) = 300 /\
  0 <= bpm (mkMeasurement 300 []) < 65536.
Proof.
  assert (H : parse_heart_rate MoreInputs.packet16
              = Value (mkMeasurement 300 []))
    by (vm_compute; reflexivity).
  exact (conj H (bpm_decoded _ _ _ _ H)).
Defined.

(** X18: the number of RR intervals of a decoded packet.  None when bit 4
    of the flags is clear; otherwise one for every two bytes that follow
    the rate, a last odd byte being left unread. *)
Theorem rr_count (data : list Byte.byte) (m : Measurement) :
  parse_heart_rate data = Value m ->
  let flags := value (hd Byte.x00 data) in
  let offset := if Z.land flags 1 =? 0 then 2%nat else 3%nat in
  List.length (rr_intervals m)
  = if Z.land (Z.shiftr flags 4) 1 =? 0 then 0%nat
    else ((List.length data - offset) / 2)%nat.
Proof.
  destruct data as [| flags [| b1 rest]].
  - intros E. injection E as <-. reflexivity.
  - intros E. injection E as <-. cbn [hd rr_intervals List.length].
    destruct (Z.land (value flags) 1 =? 0);
      destruct (Z.land (Z.shiftr (value flags) 4) 1 =? 0); reflexivity.
  - cbn [hd]. cbv zeta.
    destruct (Z.eqb_spec (Z.land (value flags) 1) 0) as [F | F].
    + rewrite (parse_eight flags b1 rest F). intros E. injection E as <-.
      cbn [rr_intervals].
      destruct (Z.land (Z.shiftr (value flags) 4) 1 =? 0); [reflexivity |].
      rewrite (pairs_length rest _ (le_n _)).
      cbn [List.length]. rewrite Nat.sub_succ, Nat.sub_succ, Nat.sub_0_r.
      reflexivity.
    + destruct rest as [| b2 rest].
      * unfold parse_heart_rate.
        cbn [List.length Nat.ltb Nat.leb item nth_error then_].
        fold (value flags). apply Z.eqb_neq in F. rewrite F. discriminate.
      * rewrite (parse_sixteen flags b1 b2 rest F). intros E.
        injection E as <-. cbn [rr_intervals].
        destruct (Z.land (Z.shiftr (value flags) 4) 1 =? 0); [reflexivity |].
        rewrite (pairs_length rest _ (le_n _)).
        cbn [List.length].
        rewrite Nat.sub_succ, Nat.sub_succ, Nat.sub_succ, Nat.sub_0_r.
        reflexivity.
Qed.

Lemma rr_count_witness :
  exists m,
    parse_heart_rate MoreInputs.packet8 = Value m /\
    List.length (rr_intervals m) = 2%nat.
Proof.
  destruct (parse_heart_rate MoreInputs.packet8) as [m |] eqn:E.
  - exists m. split; [reflexivity |]. exact (rr_count _ m E).
  - vm_compute in E. discriminate E.
Defined.

End Fields.

(** ** The RR intervals *)

Section Intervals.
Import Ble.

(** Shifts of a mantissa: value and digits. *)
Lemma shift_value (x n : positive) :
  Zpos (Pos.iter xO x n) = Zpos x * 2 ^ Zpos n.
Proof.
  induction n as [| n IH] using Pos.peano_ind.
  - cbn [Pos.iter]. rewrite Z.pow_1_r. lia.
  - rewrite Pos.iter_succ, Pos2Z.inj_succ, Z.pow_succ_r by lia.
    rewrite Pos2Z.inj_xO, IH. ring.
Qed.

Lemma shift_digits (x n : positive) :
  Zpos (digits2_pos (Pos.iter xO x n)) = Zpos (digits2_pos x) + Zpos n.
Proof.
  induction n as [| n IH] using Pos.peano_ind.
  - cbn [Pos.iter digits2_pos]. lia.
  - rewrite Pos.iter_succ. cbn [digits2_pos]. lia.
Qed.

Lemma digits_bounds (p : positive) :
  2 ^ (Zpos (digits2_pos p) - 1) <= Zpos p < 2 ^ Zpos (digits2_pos p).
Proof.
  induction p as [p IH | p IH |]; cbn [digits2_pos].
  - rewrite Pos2Z.inj_succ, Z.pow_succ_r by lia.
    replace (Z.succ (Zpos (digits2_pos p)) - 1)
      with (Z.succ (Zpos (digits2_pos p) - 1)) by lia.
    rewrite Z.pow_succ_r by lia. lia.
  - rewrite Pos2Z.inj_succ, Z.pow_succ_r by lia.
    replace (Z.succ (Zpos (digits2_pos p)) - 1)
      with (Z.succ (Zpos (digits2_pos p) - 1)) by lia.
    rewrite Z.pow_succ_r by lia. lia.
  - simpl. lia.
Qed.

Lemma digits_le (p : positive) (k : Z) :
  0 <= k -> Zpos p < 2 ^ k -> Zpos (digits2_pos p) <= k.
Proof.
  intros K H. destruct (Z.le_gt_cases (Zpos (digits2_pos p)) k) as [L | L];
    [exact L |].
  pose proof (digits_bounds p) as [B _].
  assert (2 ^ k <= 2 ^ (Zpos (digits2_pos p) - 1))
    by (apply Z.pow_le_mono_r; lia).
  lia.
Qed.

Lemma shr_shift (n : positive) :
  forall x,
    iter_pos shr_1 n (Build_shr_record (Zpos (Pos.iter xO x n)) false false)
    = Build_shr_record (Zpos x) false false.
Proof.
  induction n as [n IH | n IH |]; intros x; cbn [iter_pos Pos.iter].
  - rewrite <- Pos.iter_swap. cbn [shr_1 orb].
    rewrite <- (Pos.iter_swap_gen _ _ _ xO) by reflexivity.
    rewrite IH. apply IH.
  - rewrite IH. apply IH.
  - reflexivity.
Qed.

Lemma fexp_normal (x : Z) : -1021 <= x -> fexp prec emax x = x - 53.
Proof. intros H. unfold fexp, emin, prec, emax. lia. Qed.

Lemma round_normal (p : positive) (e : Z) :
  Zpos (digits2_pos p) = 53 -> -1074 <= e <= 971 ->
  binary_round_aux prec emax false (Zpos p) e loc_Exact
  = S754_finite false p e.
Proof.
  intros D E. unfold binary_round_aux, shr_fexp. cbn [Zdigits2].
  rewrite D, fexp_normal by lia.
  replace (53 + e - 53 - e) with 0 by lia.
  cbn [shr shr_record_of_loc shr_m loc_of_shr_record round_nearest_even
       Zdigits2].
  rewrite D, fexp_normal by lia.
  replace (53 + e - 53 - e) with 0 by lia.
  cbn [shr shr_record_of_loc shr_m].
  replace (e <=? emax - prec) with true; [reflexivity |].
  symmetry. apply Z.leb_le. unfold emax, prec. lia.
Qed.

Lemma round_shifted (p n : positive) (e : Z) :
  Zpos (digits2_pos p) = 53 -> -1074 <= e + Zpos n <= 971 ->
  binary_round_aux prec emax false (Zpos (Pos.iter xO p n)) e loc_Exact
  = S754_finite false p (e + Zpos n).
Proof.
  intros D E. unfold binary_round_aux, shr_fexp. cbn [Zdigits2].
  rewrite shift_digits, D, fexp_normal by lia.
  replace (53 + Zpos n + e - 53 - e) with (Zpos n) by lia.
  cbn [shr shr_record_of_loc]. rewrite shr_shift.
  cbn [shr_m loc_of_shr_record round_nearest_even Zdigits2].
  rewrite D, fexp_normal by lia.
  replace (53 + (e + Zpos n) - 53 - (e + Zpos n)) with 0 by lia.
  cbn [shr shr_record_of_loc shr_m].
  replace (e + Zpos n <=? emax - prec) with true; [reflexivity |].
  symmetry. apply Z.leb_le. unfold emax, prec. lia.
Qed.

(** The float of a small positive int: its digits, moved up to 53. *)
Lemma int_literal_normal (raw : positive) :
  Zpos (digits2_pos raw) < 53 ->
  exists m,
    Parse.int_literal (Zpos raw)
    = S754_finite false m (Zpos (digits2_pos raw) - 53) /\
    Zpos (digits2_pos m) = 53 /\
    Zpos m = Zpos raw * 2 ^ (53 - Zpos (digits2_pos raw)).
Proof.
  intros D. unfold Parse.int_literal, binary_normalize, binary_round, shl_align.
  rewrite fexp_normal by lia.
  destruct (Zpos (digits2_pos raw) + 0 - 53 - 0) as [| k | k] eqn:K; try lia.
  exists (Pos.iter xO raw k).
  assert (S : Zpos (digits2_pos (Pos.iter xO raw k)) = 53)
    by (rewrite shift_digits; lia).
  split; [| split].
  - rewrite round_normal by lia. f_equal; lia.
  - exact S.
  - rewrite shift_value. f_equal. f_equal. lia.
Qed.

Lemma div_1024 (m : positive) (e : Z) :
  Zpos (digits2_pos m) = 53 -> -1000 <= e <= 900 ->
  div (S754_finite false m e) (Parse.literal "1024.0")
  = S754_finite false m (e - 10).
Proof.
  intros D E.
  replace (Parse.literal "1024.0")
    with (S754_finite false 4503599627370496 (-42))
    by (vm_compute; reflexivity).
  unfold div, SFdiv, SFdiv_core_binary. cbn [Zdigits2 xorb].
  rewrite D.
  change (Zpos (digits2_pos 4503599627370496)) with 53.
  rewrite fexp_normal by lia.
  replace (Z.min (53 + e - (53 + -42) - 53) (e - -42)) with (e - 11) by lia.
  replace (e - -42 - (e - 11)) with 53 by lia.
  assert (Q : Z.div_eucl (Z.shiftl (Zpos m) 53) 4503599627370496
              = (Zpos m~0, 0)).
  { rewrite Z.shiftl_mul_pow2 by lia.
    pose proof (Z.div_eucl_eq (Zpos m * 2 ^ 53) 4503599627370496) as Q.
    pose proof (Z.mod_pos_bound (Zpos m * 2 ^ 53) 4503599627370496) as R.
    unfold Z.modulo in R.
    destruct (Z.div_eucl (Zpos m * 2 ^ 53) 4503599627370496) as [q r].
    change (2 ^ 53) with 9007199254740992 in *.
    specialize (Q ltac:(lia)). specialize (R ltac:(lia)).
    f_equal; lia. }
  rewrite Q. cbv beta iota.
  change (new_location 4503599627370496 0) with loc_Exact.
  change (Zpos m~0) with (Zpos (Pos.iter xO m 1)).
  rewrite round_shifted by lia. f_equal. lia.
Qed.

Lemma mul_1000 (raw m : positive) (e : Z) :
  Zpos raw < 65536 ->
  Zpos (digits2_pos m) = 53 ->
  Zpos m = Zpos raw * 2 ^ (53 - Zpos (digits2_pos raw)) ->
  -900 <= e <= 900 ->
  exists p,
    mul (S754_finite false m e) (Parse.int_literal 1000)
    = S754_finite false p
        (e - Zpos (digits2_pos raw) + Zpos (digits2_pos (raw * 1000))) /\
    Zpos p = Zpos raw * 1000 * 2 ^ (53 - Zpos (digits2_pos (raw * 1000))).
Proof.
  intros R D M E.
  replace (Parse.int_literal 1000)
    with (S754_finite false 8796093022208000 (-43))
    by (vm_compute; reflexivity).
  unfold mul, SFmul. cbn [xorb].
  pose proof (digits_le raw 16 ltac:(lia) R) as DR.
  assert (DQ : Zpos (digits2_pos (raw * 1000)) <= 26).
  { apply digits_le; [lia |]. rewrite Pos2Z.inj_mul.
    change (2 ^ 26) with 67108864. lia. }
  pose proof (digits_bounds raw) as [BR _].
  pose proof (digits_bounds (raw * 1000)) as [_ BQ].
  assert (DD : Zpos (digits2_pos raw) <= Zpos (digits2_pos (raw * 1000))).
  { destruct (Z.le_gt_cases (Zpos (digits2_pos raw))
                (Zpos (digits2_pos (raw * 1000)))) as [L | L]; [exact L |].
    assert (2 ^ Zpos (digits2_pos (raw * 1000))
            <= 2 ^ (Zpos (digits2_pos raw) - 1))
      by (apply Z.pow_le_mono_r; lia).
    rewrite Pos2Z.inj_mul in BQ. lia. }
  set (s := Z.to_pos (53 - Zpos (digits2_pos (raw * 1000)))).
  set (n := Z.to_pos (43 - Zpos (digits2_pos raw)
                      + Zpos (digits2_pos (raw * 1000)))).
  assert (Hs : Zpos s = 53 - Zpos (digits2_pos (raw * 1000)))
    by (unfold s; rewrite Z2Pos.id; lia).
  assert (Hn : Zpos n = 43 - Zpos (digits2_pos raw)
                        + Zpos (digits2_pos (raw * 1000)))
    by (unfold n; rewrite Z2Pos.id; lia).
  exists (Pos.iter xO (raw * 1000)%positive s).
  assert (P : (m * 8796093022208000)%positive
              = Pos.iter xO (Pos.iter xO (raw * 1000)%positive s) n).
  { apply Pos2Z.inj. rewrite Pos2Z.inj_mul, M, !shift_value, Pos2Z.inj_mul.
    rewrite Hs, Hn.
    change (Zpos 8796093022208000) with (1000 * 2 ^ 43).
    rewrite <- (Z.mul_assoc _ (2 ^ _) (2 ^ _)), <- Z.pow_add_r by lia.
    replace (53 - Zpos (digits2_pos (raw * 1000))
             + (43 - Zpos (digits2_pos raw)
                + Zpos (digits2_pos (raw * 1000))))
      with (53 - Zpos (digits2_pos raw) + 43) by lia.
    rewrite Z.pow_add_r by lia. ring. }
  rewrite P. split.
  - rewrite round_shifted by (rewrite ?shift_digits; lia).
    f_equal. lia.
  - rewrite shift_value, Pos2Z.inj_mul, Hs. reflexivity.
Qed.

(** The conversion of a raw interval to milliseconds rounds nothing. *)
Lemma rr_ms_exact (lo hi : Z) :
  0 <= lo < 256 -> 0 <= hi < 256 ->
  Exact.ratio (rr_ms lo hi) (1000 * (lo + 256 * hi)) 10 = true.
Proof.
  intros L H. unfold rr_ms.
  rewrite raw16_add by lia.
  destruct (lo + 256 * hi) as [| raw | raw] eqn:R; [| | lia].
  - vm_compute. reflexivity.
  - assert (B : Zpos raw < 65536) by lia.
    pose proof (digits_le raw 16 ltac:(lia) B) as DR.
    destruct (int_literal_normal raw ltac:(lia)) as [m [-> [D M]]].
    rewrite div_1024 by lia.
    destruct (mul_1000 raw m (Zpos (digits2_pos raw) - 53 - 10) B D M
                ltac:(lia)) as [p [-> P]].
    unfold Exact.ratio.
    assert (DQ : Zpos (digits2_pos (raw * 1000)) <= 26).
    { apply digits_le; [lia |]. rewrite Pos2Z.inj_mul.
      change (2 ^ 26) with 67108864. lia. }
    replace (0 <=? _) with false by (symmetry; apply Z.leb_gt; lia).
    apply Z.eqb_eq. rewrite P.
    replace (- (Zpos (digits2_pos raw) - 53 - 10 - Zpos (digits2_pos raw)
                + Zpos (digits2_pos (raw * 1000)) + 10))
      with (53 - Zpos (digits2_pos (raw * 1000))) by lia.
    ring.
Qed.

Lemma pairs_in (rr : float) :
  forall k (l : list Byte.byte),
    (List.length l <= k)%nat ->
    In rr (pairs l) ->
    exists lo hi, rr = rr_ms (value lo) (value hi).
Proof.
  induction k as [| k IH]; intros l H I.
  - destruct l; [destruct I | simpl in H; lia].
  - destruct l as [| a [| b l]]; try destruct I as [].
    + exists a, b. symmetry. assumption.
    + apply (IH l); [simpl in H; lia | assumption].
Qed.

Lemma intervals_in (data : list Byte.byte) (m : Measurement) (rr : float) :
  parse_heart_rate data = Value m ->
  In rr (rr_intervals m) ->
  exists lo hi, rr = rr_ms (value lo) (value hi).
Proof.
  destruct data as [| flags [| b1 rest]].
  - intros E. injection E as <-. intros [].
  - intros E. injection E as <-. intros [].
  - destruct (Z.eqb_spec (Z.land (value flags) 1) 0) as [F | F].
    + rewrite (parse_eight flags b1 rest F). intros E. injection E as <-.
      cbn [rr_intervals].
      destruct (Z.land (Z.shiftr (value flags) 4) 1 =? 0); [intros [] |].
      apply (pairs_in rr _ rest (le_n _)).
    + destruct rest as [| b2 rest].
      * unfold parse_heart_rate.
        cbn [List.length Nat.ltb Nat.leb item nth_error then_].
        fold (value flags). apply Z.eqb_neq in F. rewrite F. discriminate.
      * rewrite (parse_sixteen flags b1 b2 rest F). intros E.
        injection E as <-. cbn [rr_intervals].
        destruct (Z.land (Z.shiftr (value flags) 4) 1 =? 0); [intros [] |].
        apply (pairs_in rr _ rest (le_n _)).
Qed.

(** X19: every RR interval of a decoded packet is, without any rounding,
    [raw * 1000 / 1024] milliseconds for a sixteen-bit [raw]: the division
    by 1024.0 and the product by 1000 are both exact in binary64. *)
Theorem intervals_exact (data : list Byte.byte) (m : Measurement)
  (rr : float) :
  parse_heart_rate data = Value m ->
  In rr (rr_intervals m) ->
  exists raw,
    0 <= raw < 65536 /\ Exact.ratio rr (1000 * raw) 10 = true.
Proof.
  intros E I.
  destruct (intervals_in data m rr E I) as [lo [hi ->]].
  pose proof (value_byte lo) as L. pose proof (value_byte hi) as H.
  exists (value lo + 256 * value hi). split; [lia |].
  apply rr_ms_exact; assumption.
Qed.

Lemma intervals_exact_witness :
  parse_heart_rate MoreInputs.packet8 = Value MoreInputs.measurement8 /\
  In (rr_ms 82 3) (rr_intervals MoreInputs.measurement8) /\
  exists raw,
    0 <= raw < 65536 /\ Exact.ratio (rr_ms 82 3) (1000 * raw) 10 = true.
Proof.
  assert (E : parse_heart_rate MoreInputs.packet8
              = Value MoreInputs.measurement8)
    by (vm_compute; reflexivity).
  assert (I : In (rr_ms 82 3) (rr_intervals MoreInputs.measurement8))
    by exact (or_intror (or_introl eq_refl)).
  exact (conj E (conj I (intervals_exact _ _ _ E I))).
Defined.

End Intervals.

(** ** The notification callback *)

Section Callback.
Import Ble.

(** X20: a packet too short to decode never raises in [hr_callback]: it is
    printed as an invalid reading of 0. *)
Theorem callback_short_packet (timestamp : string) (data : list Byte.byte) :
  (List.length data < 2)%nat ->
  hr_callback timestamp data = Value (timestamp ++ "    --- (invalid: 0)").
Proof.
  intros H. destruct data as [| a [| b rest]].
  - reflexivity.
  - reflexivity.
  - simpl in H. lia.
Qed.

Lemma callback_short_packet_witness :
  (List.length [Byte.x10] < 2)%nat /\
  hr_callback "12:00:01" [Byte.x10]
  = Value ("12:00:01" ++ "    --- (invalid: 0)").
Proof.
  assert (H : (List.length [Byte.x10] < 2)%nat) by (simpl; lia).
  exact (conj H (callback_short_packet "12:00:01" [Byte.x10] H)).
Defined.

(** The field of a rate the callback takes as valid: three characters,
    the first of them no dash. *)
Lemma valid_field (n : Z) :
  30 < n < 220 ->
  exists a b c,
    PyStr.rjust 3 (PyStr.of_int n) = String a (String b (String c "")) /\
    Ascii.eqb "-" a = false.
Proof.
  intros H.
  assert (A : forallb (fun k =>
                match PyStr.rjust 3 (PyStr.of_int k) with
                | String a (String b (String c EmptyString)) =>
                    negb (Ascii.eqb "-" a)
                | _ => false
                end) (map Z.of_nat (seq 31 189)) = true)
    by (vm_compute; reflexivity).
  rewrite forallb_forall in A.
  assert (I : In n (map Z.of_nat (seq 31 189))).
  { apply in_map_iff. exists (Z.to_nat n). split; [lia |].
    apply in_seq. lia. }
  specialize (A n I). cbv beta in A.
  destruct (PyStr.rjust 3 (PyStr.of_int n)) as [| a [| b [| c [| d s]]]];
    try discriminate A.
  exists a, b, c. split; [reflexivity |].
  apply negb_true_iff. exact A.
Qed.

(** X21: the line [hr_callback] prints for a decoded packet is the
    timestamp, four spaces and a field.  The field starts with dashes
    exactly when the rate is not between 31 and 219; for a rate in that
    range the number takes three columns, so [ BPM] always follows at the
    same place. *)
Theorem callback_line (timestamp : string) (data : list Byte.byte)
  (m : Measurement) :
  parse_heart_rate data = Value m ->
  exists tail,
    hr_callback timestamp data = Value (timestamp ++ "    " ++ tail) /\
    (PyStr.startswith "---" tail = true <-> ~ 30 < bpm m < 220) /\
    (30 < bpm m < 220 -> substring 3 4 tail = " BPM").
Proof.
  intros E. unfold hr_callback. rewrite E. cbn [then_].
  destruct (Z.ltb_spec 30 (bpm m)) as [L | L];
    [destruct (Z.ltb_spec (bpm m) 220) as [U | U] |]; cbn [andb].
  - destruct (valid_field (bpm m) (conj L U)) as [a [b [c [F D]]]].
    rewrite F.
    generalize (match rr_intervals m with
                | [] => ""
                | rr :: _ => "  RR: " ++ PyStr.fixed 0 rr ++ "ms"
                end).
    intros rr_str.
    exists (String a (String b (String c "")) ++ " BPM" ++ rr_str).
    split; [reflexivity |]. split.
    + cbn [append PyStr.startswith]. rewrite D. cbn [andb].
      split; [discriminate | intros N; exfalso; apply N; lia].
    + intros _. cbn [append substring].
      destruct rr_str; reflexivity.
  - exists ("--- (invalid: " ++ PyStr.of_int (bpm m) ++ ")").
    split; [reflexivity |]. split.
    + split; [intros _; lia | reflexivity].
    + intros V. lia.
  - exists ("--- (invalid: " ++ PyStr.of_int (bpm m) ++ ")").
    split; [reflexivity |]. split.
    + split; [intros _; lia | reflexivity].
    + intros V. lia.
Qed.

Lemma callback_line_witness :
  parse_heart_rate MoreInputs.packet8 = Value MoreInputs.measurement8 /\
  exists tail,
    hr_callback "12:00:01" MoreInputs.packet8
    = Value ("12:00:01" ++ "    " ++ tail) /\
    (PyStr.startswith "---" tail = true
     <-> ~ 30 < bpm MoreInputs.measurement8 < 220) /\
    (30 < bpm MoreInputs.measurement8 < 220 -> substring 3 4 tail = " BPM").
Proof.
  assert (E : parse_heart_rate MoreInputs.packet8
              = Value MoreInputs.measurement8)
    by (vm_compute; reflexivity).
  exact (conj E (callback_line "12:00:01" _ _ E)).
Defined.

End Callback.

(** ** The scan for the device *)

Section Devices.
Import Ble.
Variables upper lower : string -> string.

Lemma scan_none_inv (name_filter mac_filter : option string)
  (devices : list Device) :
  scan_for_device upper lower name_filter mac_filter devices = None ->
  forall x, In x devices ->
    mac_matches upper mac_filter x || name_matches lower name_filter x
    = false.
Proof.
  induction devices as [| device rest IH]; intros H x I.
  - destruct I.
  - cbn [scan_for_device] in H.
    destruct (mac_matches upper mac_filter device) eqn:M; [discriminate H |].
    destruct (name_matches lower name_filter device) eqn:N;
      [discriminate H |].
    destruct I as [<- | I].
    + rewrite M, N. reflexivity.
    + apply IH; assumption.
Qed.

Lemma scan_none_intro (name_filter mac_filter : option string)
  (devices : list Device) :
  (forall x, In x devices ->
     mac_matches upper mac_filter x || name_matches lower name_filter x
     = false) ->
  scan_for_device upper lower name_filter mac_filter devices = None.
Proof.
  induction devices as [| device rest IH]; intros H.
  - reflexivity.
  - cbn [scan_for_device].
    destruct (orb_false_elim _ _ (H device (or_introl eq_refl))) as [M N].
    rewrite M, N. apply IH. intros x I. apply H. right. exact I.
Qed.

(** X22: [scan_for_device] returns the first discovered device whose
    address equals the MAC filter, case apart, or whose name contains the
    name filter, case apart: the devices before it match neither. *)
Theorem scan_finds_first (name_filter mac_filter : option string)
  (devices : list Device) (d : Device) :
  scan_for_device upper lower name_filter mac_filter devices = Some d <->
  exists before after,
    devices = (before ++ d :: after)%list /\
    mac_matches upper mac_filter d || name_matches lower name_filter d
    = true /\
    forall x, In x before ->
      mac_matches upper mac_filter x || name_matches lower name_filter x
      = false.
Proof.
  split.
  - induction devices as [| device rest IH]; intros H; [discriminate H |].
    cbn [scan_for_device] in H.
    destruct (mac_matches upper mac_filter device) eqn:M.
    + injection H as <-. exists [], rest.
      split; [reflexivity |]. split; [rewrite M; reflexivity |].
      intros x [].
    + destruct (name_matches lower name_filter device) eqn:N.
      * injection H as <-. exists [], rest.
        split; [reflexivity |]. split; [rewrite M, N; reflexivity |].
        intros x [].
      * destruct (IH H) as [before [after [E [T B]]]].
        exists (device :: before), after.
        split; [rewrite E; reflexivity |]. split; [exact T |].
        intros x [<- | I]; [rewrite M, N; reflexivity | apply B; exact I].
  - intros [before [after [-> [T B]]]].
    induction before as [| x before IH].
    + cbn [app scan_for_device].
      destruct (mac_matches upper mac_filter d); [reflexivity |].
      cbn [orb] in T. rewrite T. reflexivity.
    + cbn [app scan_for_device].
      destruct (orb_false_elim _ _ (B x (or_introl eq_refl))) as [M N].
      rewrite M, N. apply IH. intros y I. apply B. right. exact I.
Qed.

(** X23: [scan_for_device] returns [None] exactly when no discovered
    device matches either filter; a filter that is [None] or the empty
    string matches no device, so with both filters missing every scan
    returns [None]. *)
Theorem scan_none_iff (name_filter mac_filter : option string)
  (devices : list Device) :
  (scan_for_device upper lower name_filter mac_filter devices = None <->
   forall x, In x devices ->
     mac_matches upper mac_filter x || name_matches lower name_filter x
     = false) /\
  (given name_filter = None -> given mac_filter = None ->
   scan_for_device upper lower name_filter mac_filter devices = None).
Proof.
  split.
  - split; [apply scan_none_inv | apply scan_none_intro].
  - intros N M. apply scan_none_intro. intros x _.
    unfold mac_matches, name_matches. rewrite N, M. reflexivity.
Qed.

(** X24: an argument of [main] replaces one filter only.  When the
    argument is a name (no colon in it), the default address stays a
    filter: a discovered device with that address is enough for the scan
    to find a device, whatever the names are. *)
Theorem default_mac_still_matches (prog arg : string) (rest : list string)
  (devices : list Device) (d : Device) :
  PyStr.contains ":" arg = false ->
  In d devices ->
  upper (address d) = upper BleMain.default_mac ->
  exists found,
    BleMain.device upper lower (prog :: arg :: rest) devices = Some found.
Proof.
  intros C I A. unfold BleMain.device, BleMain.target. rewrite C.
  destruct (scan_for_device upper lower (Some arg)
              (Some BleMain.default_mac) devices) as [found |] eqn:S.
  - exists found. reflexivity.
  - pose proof (scan_none_inv _ _ _ S d I) as F.
    apply orb_false_elim in F. destruct F as [F _].
    unfold mac_matches in F. cbn [given BleMain.default_mac] in F.
    rewrite A in F. cbn [BleMain.default_mac] in F.
    rewrite String.eqb_refl in F. discriminate F.
Qed.

End Devices.

Section Found.
Import Ble.

Lemma scan_finds_first_witness :
  scan_for_device MoreInputs.ascii_upper MoreInputs.ascii_lower
    (Some "polar") (Some "F4:8C:C9:1B:E6:1B") MoreInputs.devices
  = Some (mkDevice (Some "Polar H10") "c0:ff:ee:00:00:01").
Proof.
  apply (scan_finds_first MoreInputs.ascii_upper MoreInputs.ascii_lower).
  exists [mkDevice None "AA:BB:CC:00:11:22"],
         [mkDevice (Some "Coospo hw9 1234") "F4:8C:C9:1B:E6:1B"].
  split; [reflexivity |]. split; [vm_compute; reflexivity |].
  intros x [<- | []]. vm_compute. reflexivity.
Defined.

Lemma default_mac_still_matches_witness :
  PyStr.contains ":" "Garmin" = false /\
  In (mkDevice (Some "Coospo hw9 1234") "F4:8C:C9:1B:E6:1B")
     MoreInputs.devices /\
  exists found,
    BleMain.device MoreInputs.ascii_upper MoreInputs.ascii_lower
      ["ble_hr_monitor.py"; "Garmin"] MoreInputs.devices = Some found.
Proof.
  assert (C : PyStr.contains ":" "Garmin" = false) by (vm_compute; reflexivity).
  assert (I : In (mkDevice (Some "Coospo hw9 1234") "F4:8C:C9:1B:E6:1B")
                MoreInputs.devices)
    by exact (or_intror (or_intror (or_introl eq_refl))).
  exact (conj C (conj I
           (default_mac_still_matches MoreInputs.ascii_upper
              MoreInputs.ascii_lower "ble_hr_monitor.py" "Garmin" []
              MoreInputs.devices _ C I eq_refl))).
Defined.

End Found.
